(** * ReAct agent loops: a shallow embedding of the repository's variants

    The repository holds one agent written several times over, each file
    adding a feature to the previous one:

    - [1.agent.py]: line-based parser, no timeout;
    - [2.agent-streaming.py]: regex parser, streamed replies, timeout;
    - [4.agent-streaming-styled-context.py]: the same loop, returning the
      history as well;
    - [6.agent-streaming-styled-final-check-safeguards.py]: malformed-turn
      check, safety gate, final verification, unknown-tool observation.

    Each file is embedded in a module of its own ([Agent1], [Agent2],
    [Agent4], [Agent6]) whose definitions carry the names of the Python
    functions; the body of a [for] loop and the blocks inside it get names
    of their own ([iteration], [dispatch], [final_check]).  Console output
    is presentational and is left out.  [7.agent-uses-model-tool-calling.py]
    and [9.test-detect-eot-token.py] play no part in what is proved here. *)

From Stdlib Require Import Bool Arith ZArith Lia List Ascii String.
From Stdlib Require DecimalString.
Import ListNotations.
Open Scope string_scope.
Open Scope bool_scope.

(** * Python text operations

    Text is modelled by [string]; the operations below are the Python
    [str] methods the agents call, with their behaviour on ASCII text
    (the alphabet of every marker and token of the programs).  On other
    characters Python's [strip] and [upper] follow Unicode, which the
    embedding leaves out: a statement that would depend on it is made of
    ASCII text ([isascii]) only. *)

Module Py.

(** [str.isspace] on one character: TAB, LF, VT, FF, CR, the four
    separators FS GS RS US, and the space. *)
Definition isspace (c : ascii) : bool :=
  let n := nat_of_ascii c in
  ((9 <=? n)%nat && (n <=? 13)%nat) || ((28 <=? n)%nat && (n <=? 31)%nat)
  || (n =? 32)%nat.

Definition islower (c : ascii) : bool :=
  let n := nat_of_ascii c in (97 <=? n)%nat && (n <=? 122)%nat.

Definition toupper (c : ascii) : ascii :=
  if islower c then ascii_of_nat (nat_of_ascii c - 32) else c.

(** [s.upper()] *)
Fixpoint upper (s : string) : string :=
  match s with
  | EmptyString => EmptyString
  | String c s' => String (toupper c) (upper s')
  end.

(** [s.lstrip()] *)
Fixpoint lstrip (s : string) : string :=
  match s with
  | EmptyString => EmptyString
  | String c s' => if isspace c then lstrip s' else s
  end.

(** [s.rstrip()] *)
Fixpoint rstrip (s : string) : string :=
  match s with
  | EmptyString => EmptyString
  | String c s' =>
      match rstrip s' with
      | EmptyString => if isspace c then EmptyString else String c EmptyString
      | r => String c r
      end
  end.

(** [s.strip()] *)
Definition strip (s : string) : string := rstrip (lstrip s).

(** [s.startswith(p)] *)
Definition startswith (p s : string) : bool := prefix p s.

(** [s[n:]] for [0 <= n] *)
Fixpoint slice_from (n : nat) (s : string) : string :=
  match n, s with
  | O, _ => s
  | S n', String _ s' => slice_from n' s'
  | S _, EmptyString => EmptyString
  end.

(** [sub in s] *)
Fixpoint contains (sub s : string) : bool :=
  prefix sub s ||
  match s with
  | EmptyString => false
  | String _ s' => contains sub s'
  end.

(** [s.partition(sep)], [None] when [sep] does not occur: the text before
    and after the first occurrence of [sep]. *)
Fixpoint partition (sep s : string) : option (string * string) :=
  if prefix sep s then Some (EmptyString, slice_from (String.length sep) s)
  else
    match s with
    | EmptyString => None
    | String c s' =>
        match partition sep s' with
        | Some (before, after) => Some (String c before, after)
        | None => None
        end
    end.

(** [s.split(sep)] for a one-character separator *)
Fixpoint split (sep : ascii) (s : string) : list string :=
  match s with
  | EmptyString => [EmptyString]
  | String c s' =>
      if Ascii.eqb c sep then EmptyString :: split sep s'
      else
        match split sep s' with
        | line :: rest => String c line :: rest
        | [] => [String c EmptyString]
        end
  end.

(** [sep.join(parts)] *)
Fixpoint join (sep : string) (parts : list string) : string :=
  match parts with
  | [] => EmptyString
  | [p] => p
  | p :: rest => p ++ sep ++ join sep rest
  end.


(** Truth value of a [str]: non-empty. *)
Definition truthy (s : string) : bool :=
  match s with EmptyString => false | _ => true end.

Definition newline : ascii := "010"%char.

End Py.

(** * The regular expressions of the parsers

    Every pattern of the sources has the shape [marker(.*?)tail], searched
    with [re.DOTALL]: a literal marker, a lazy group over any characters,
    and a tail.  The group is what the parsers read. *)

Module Re.

(** [$] (no [re.MULTILINE]): the end of the text, or the position just
    before a newline that ends the text. *)
Definition at_dollar (s : string) : bool :=
  match s with
  | EmptyString => true
  | String c EmptyString => Ascii.eqb c Py.newline
  | _ => false
  end.

(** [(.*?)tail] at the start of [s]: the group grows one character at a
    time until the tail matches. *)
Fixpoint lazy_group (tail : string -> bool) (s : string) : option string :=
  if tail s then Some EmptyString
  else
    match s with
    | EmptyString => None
    | String c s' => option_map (String c) (lazy_group tail s')
    end.

(** [re.search(marker(.*?)tail, s, re.DOTALL)], then [.group(1)]: start
    positions are tried from left to right. *)
Fixpoint search (marker : string) (tail : string -> bool) (s : string)
  : option string :=
  match
    (if prefix marker s
     then lazy_group tail (Py.slice_from (String.length marker) s)
     else None)
  with
  | Some g => Some g
  | None =>
      match s with
      | EmptyString => None
      | String _ s' => search marker tail s'
      end
  end.

(** [\s*k]: some run of whitespace, then [k]. *)
Fixpoint spaces_then (k : string -> bool) (s : string) : bool :=
  k s ||
  match s with
  | EmptyString => false
  | String c s' => Py.isspace c && spaces_then k s'
  end.

(** [\|?k]: an optional bar, then [k]. *)
Definition opt_bar_then (k : string -> bool) (s : string) : bool :=
  match s with
  | String "|"%char s' => k s' || k s
  | _ => k s
  end.

End Re.

(** * The host: model backend and command interpreter *)

(** One entry of the [messages] list sent to the backend. *)
Record message := { role : string; content : string }.

Definition system_msg (c : string) := {| role := "system"; content := c |}.
Definition user_msg (c : string) := {| role := "user"; content := c |}.
Definition assistant_msg (c : string) := {| role := "assistant"; content := c |}.

(** A child process as [subprocess.run] meets it: either the interpreter
    could not be started, or the child runs for [elapsed] time units and
    exits with a status and its two captured streams.  A child that never
    exits is, under a timeout, a child with a large [elapsed]; without a
    timeout the call would not return and the program would do nothing
    more. *)
Record process := {
  elapsed : Z;
  returncode : Z;
  stdout : string;
  stderr : string
}.

Inductive launch :=
| Started (p : process)
| Failed (description : string).

(** The host the agent runs on.  Nothing is assumed of it: the backend
    may answer anything, differently at every call.  A backend call that
    raises ends the program at once; the embedding follows the runs in
    which the backend answers. *)
Record Env := {
  World : Type;
  (** [ollama.chat(model, messages)['message']['content']] *)
  ollama_chat : string -> list message -> World -> string * World;
  (** [ollama.chat(model, messages, stream=True)]: the chunks' contents *)
  ollama_chat_stream : string -> list message -> World -> list string * World;
  (** what running a command line through the shell does *)
  shell : string -> World -> launch * World
}.

(** What the program did to the host, in order: a call to the backend,
    a command handed to [subprocess.run], and the killing of a command's
    child by [subprocess.run] when its timeout expired. *)
Inductive event :=
| Chat (model : string) (messages : list message)
| Shell (command : string) (timeout : option Z)
| Kill (command : string).

Record state (E : Env) := { world : World E; trace : list event }.
Arguments world {E} _.
Arguments trace {E} _.

Definition init {E : Env} (w : World E) : state E :=
  {| world := w; trace := [] |}.

(** Computations on the host. *)
Definition M (E : Env) (A : Type) : Type := state E -> A * state E.

Definition ret {E A} (a : A) : M E A := fun s => (a, s).

Definition bind {E A B} (m : M E A) (f : A -> M E B) : M E B :=
  fun s => let (a, s') := m s in f a s'.

Notation "x <- m ;; k" := (bind m (fun x => k))
  (at level 61, m at next level, right associativity).

Definition chat {E} (model : string) (messages : list message) : M E string :=
  fun s =>
    let (reply, w) := ollama_chat E model messages (world s) in
    (reply, {| world := w; trace := trace s ++ [Chat model messages] |}).

Definition chat_stream {E} (model : string) (messages : list message)
  : M E (list string) :=
  fun s =>
    let (chunks, w) := ollama_chat_stream E model messages (world s) in
    (chunks, {| world := w; trace := trace s ++ [Chat model messages] |}).

(** Exceptions of [subprocess.run]; [str] is Python's [str(e)]. *)
Inductive exception :=
| TimeoutExpired (command : string) (timeout : Z)
| OtherException (description : string).

Definition decimal (z : Z) : string :=
  DecimalString.NilZero.string_of_int (Z.to_int z).

Definition str (e : exception) : string :=
  match e with
  | TimeoutExpired command timeout =>
      "Command '" ++ command ++ "' timed out after " ++ decimal timeout
      ++ " seconds"
  | OtherException description => description
  end.

Inductive completion :=
| CompletedProcess (rc : Z) (out err : string)
| Raise (e : exception).

(** [subprocess.run(command, shell=True, capture_output=True, text=True,
    timeout=...)]: waits for the child; with a timeout, a child still
    running when it expires is killed and waited for, and only then is
    [TimeoutExpired] raised.  Without a timeout nothing is ever killed. *)
Definition subprocess_run {E} (command : string) (timeout : option Z)
  : M E completion :=
  fun s =>
    let (l, w) := shell E command (world s) in
    let s' := {| world := w; trace := trace s ++ [Shell command timeout] |} in
    match l with
    | Failed description => (Raise (OtherException description), s')
    | Started p =>
        match timeout with
        | Some limit =>
            if (limit <? elapsed p)%Z
            then (Raise (TimeoutExpired command limit),
                  {| world := w;
                     trace := trace s ++ [Shell command timeout; Kill command] |})
            else (CompletedProcess (returncode p) (stdout p) (stderr p), s')
        | None => (CompletedProcess (returncode p) (stdout p) (stderr p), s')
        end
    end.

(** A [dict] with [str] keys, in insertion order. *)
Fixpoint dict_get {A} (key : string) (d : list (string * A)) : option A :=
  match d with
  | [] => None
  | (k, v) :: d' => if String.eqb key k then Some v else dict_get key d'
  end.

(** How one pass through the body of the [for] loop ends. *)
Inductive flow (R : Type) :=
| Return (result : R)
| Next (history : list message).
Arguments Return {R} _.
Arguments Next {R} _.

(** * [1.agent.py] *)

Module Agent1.

Definition SYSTEM_PROMPT : string := "
You are an AI agent that solves tasks iteratively using Reasoning and Acting (ReAct).
For each step:
- Thought: Reason step-by-step about what to do next.
- Action: If needed, call a tool in the format 'tool_name: argument'. Available tools: run_shell_command (e.g., 'run_shell_command: ls -l /home').
- If you have the final answer, output 'Final Answer: [your answer]'.

Do not repeat actions unnecessarily. Stop when the query is solved.
".

(** [parse_output]: the [for] loop over the lines, carrying [thought] and
    [action]; a line that starts with [Final Answer:] ends it. *)
Fixpoint parse_lines (lines : list string) (thought : string)
  (action : option (string * string))
  : string * option (string * string) * option string :=
  match lines with
  | [] => (thought, action, None)
  | line :: rest =>
      if Py.startswith "Thought:" line then
        parse_lines rest (Py.strip (Py.slice_from 8 line)) action
      else if Py.startswith "Action:" line then
        let action_str := Py.strip (Py.slice_from 7 line) in
        match Py.partition ":" action_str with
        | Some (tool, arg) =>
            parse_lines rest thought (Some (Py.strip tool, Py.strip arg))
        | None => parse_lines rest thought action
        end
      else if Py.startswith "Final Answer:" line then
        (thought, action,
         Some (Py.join (String Py.newline "")
                 (Py.strip (Py.slice_from 13 line) :: rest)))
      else parse_lines rest thought action
  end.

Definition parse_output (output : string)
  : string * option (string * string) * option string :=
  parse_lines (Py.split Py.newline (Py.strip output)) "" None.

Section Agent.
Context (E : Env).

Definition run_shell_command (command : string) : M E string :=
  result <- subprocess_run command None ;;
  match result with
  | CompletedProcess rc out err =>
      if (rc =? 0)%Z then ret (Py.strip out)
      else ret ("Error: " ++ Py.strip err)
  | Raise e => ret ("Exception: " ++ str e)
  end.

Definition TOOLS : list (string * (string -> M E string)) :=
  [("run_shell_command", run_shell_command)].

Definition get_llm_response (history : list message) : M E string :=
  chat "llama3.1:8b" history.

(** The [if action: ... else: ...] at the end of the loop body. *)
Definition dispatch (history : list message) (output : string)
  (action : option (string * string)) : M E (flow string) :=
  match action with
  | Some (tool_name, arg) =>
      match dict_get tool_name TOOLS with
      | Some tool =>
          observation <- tool arg ;;
          ret (Next (history ++
                       [assistant_msg output;
                        user_msg ("Observation: " ++ observation)]))
      | None => ret (Next history)
      end
  | None => ret (Next (history ++ [assistant_msg output]))
  end.

(** The body of [for step in range(max_steps)]. *)
Definition iteration (history : list message) : M E (flow string) :=
  output <- get_llm_response history ;;
  let '(thought, action, final_answer) := parse_output output in
  match final_answer with
  | Some answer =>
      if Py.truthy answer then ret (Return answer)
      else dispatch history output action
  | None => dispatch history output action
  end.

Fixpoint loop (steps : nat) (history : list message) : M E string :=
  match steps with
  | O => ret "Max steps reached without final answer."
  | S steps' =>
      f <- iteration history ;;
      match f with
      | Return answer => ret answer
      | Next history' => loop steps' history'
      end
  end.

Definition run_agent (query : string) (max_steps : Z) : M E string :=
  loop (Z.to_nat max_steps) [system_msg SYSTEM_PROMPT; user_msg query].

End Agent.
End Agent1.

(** * [2.agent-streaming.py] *)

Module Agent2.

Definition SYSTEM_PROMPT : string := "
You are an AI agent that solves tasks iteratively using Reasoning and Acting (ReAct).
Your response MUST be in the following format for each step:
|Thought:| [Your reasoning process here]
ONE OF THE FOLLOWING ELEMENTS:
|Action:| [tool_name: argument]
OR 
|Final Answer:| [your final answer]

Explanaition about these possible output sections:
- |Thought:| Reason step-by-step about what to do next.
- |Action:| If needed, call a tool in the format 'tool_name: argument'. Available tools: run_shell_command (e.g., 'run_shell_command: ls -l /home').
- If you have the final answer, output '|Final Answer:| [your answer]'.

You can't have multiple instances of |Thought:| in one response, make all the toughts appear in on |Thought:| element.
Make sure to never provide both |Action:| and |Final Answer:| elements in one response.
Even if action to perform is none, do not add |Action:| section to the respose.
Do not repeat actions unnecessarily. Stop when the query is solved.
Do not try to install additional software on the computer where you are being executed.
".

(** The tails [(?:\|Action:\||\|Final Answer:\||$)] and its two siblings. *)
Definition thought_tail (s : string) : bool :=
  prefix "|Action:|" s || prefix "|Final Answer:|" s || Re.at_dollar s.

Definition action_tail (s : string) : bool :=
  prefix "|Thought:|" s || prefix "|Final Answer:|" s || Re.at_dollar s.

Definition final_answer_tail (s : string) : bool :=
  prefix "|Thought:|" s || prefix "|Action:|" s || Re.at_dollar s.

(** [m.group(1).strip() if m else ""] *)
Definition group1 (m : option string) : string :=
  match m with
  | Some g => Py.strip g
  | None => ""
  end.

Definition parse_output (output : string)
  : string * option (string * string) * string :=
  let thought_match := Re.search "|Thought:|" thought_tail output in
  let action_match := Re.search "|Action:|" action_tail output in
  let final_answer_match :=
    Re.search "|Final Answer:|" final_answer_tail output in
  let thought := group1 thought_match in
  let action_str := group1 action_match in
  let final_answer := group1 final_answer_match in
  let action :=
    if Py.truthy action_str then
      match Py.partition ":" action_str with
      | Some (tool, arg) => Some (Py.strip tool, Py.strip arg)
      | None => None
      end
    else None in
  (thought, action, final_answer).

Section Agent.
Context (E : Env).

Definition run_shell_command (command : string) : M E string :=
  result <- subprocess_run command (Some 30%Z) ;;
  match result with
  | CompletedProcess rc out err =>
      if (rc =? 0)%Z then ret (Py.strip out)
      else ret ("Error: " ++ Py.strip err)
  | Raise (TimeoutExpired _ _) => ret "action execution failed with timeout"
  | Raise e => ret ("Exception: " ++ str e)
  end.

Definition TOOLS : list (string * (string -> M E string)) :=
  [("run_shell_command", run_shell_command)].

(** The generator: one chunk of content after the other. *)
Definition get_llm_response (history : list message) : M E (list string) :=
  chat_stream "llama3.1:8b" history.

(** [full_response = ""; for chunk in ...: full_response += chunk] *)
Definition accumulate (chunks : list string) : string :=
  fold_left append chunks "".

Definition dispatch (history : list message) (full_response : string)
  (action : option (string * string)) : M E (flow string) :=
  match action with
  | Some (tool_name, arg) =>
      match dict_get tool_name TOOLS with
      | Some tool =>
          observation <- tool arg ;;
          ret (Next (history ++
                       [assistant_msg full_response;
                        user_msg ("Observation: " ++ observation)]))
      | None => ret (Next history)
      end
  | None => ret (Next (history ++ [assistant_msg full_response]))
  end.

(** The body of [for step in range(max_steps)]. *)
Definition iteration (history : list message) : M E (flow string) :=
  chunks <- get_llm_response history ;;
  let full_response := accumulate chunks in
  let '(thought, action, final_answer) := parse_output full_response in
  if Py.truthy final_answer then ret (Return final_answer)
  else dispatch history full_response action.

Fixpoint loop (steps : nat) (history : list message) : M E string :=
  match steps with
  | O => ret "Max steps reached without final answer."
  | S steps' =>
      f <- iteration history ;;
      match f with
      | Return answer => ret answer
      | Next history' => loop steps' history'
      end
  end.

Definition run_agent (query : string) (max_steps : Z) : M E string :=
  loop (Z.to_nat max_steps) [system_msg SYSTEM_PROMPT; user_msg query].

(** [run_agent(query)]: [max_steps] takes its default. *)
Definition run_agent_default (query : string) : M E string :=
  run_agent query 10%Z.

End Agent.
End Agent2.

(** * [4.agent-streaming-styled-context.py] *)

Module Agent4.

Definition SYSTEM_PROMPT : string := "
You are an AI agent that solves tasks iteratively using Reasoning and Acting (ReAct).
Your response MUST be in the following format for each step:
|Thought:| [Your reasoning process here]
ONE OF THE FOLLOWING ELEMENTS:
|Action:| [tool_name: argument] 
|Final Answer:| [your final answer]

Explanaition about these possible output sections:
- |Thought:| Reason step-by-step about what to do next.
- |Action:| If needed, call a tool in the format 'tool_name: argument'. Available tools: run_shell_command (e.g., 'run_shell_command: ls -l /home').
- If you have the final answer, output '|Final Answer:| [your answer]'.

If you need to run several commands, don't suggest more then one command in |Action:| section, you will get another turn to suggest subsequent tools to call. DO NOT RESPOND WITH MULTIPLE |Action:| Sections in one response
You can't have multiple instances of |Thought:| in one response, make all the toughts appear in on |Thought:| element.
Make sure to never provide both |Action:| and |Final Answer:| elements in one response.
Even if action to perform is none, do not add |Action:| section to the respose.
Do not repeat actions unnecessarily. Stop when the query is solved.
Do not try to install additional software on the computer where you are being executed.
".

Definition thought_tail (s : string) : bool :=
  prefix "|Action:|" s || prefix "|Final Answer:|" s || Re.at_dollar s.

Definition action_tail (s : string) : bool :=
  prefix "|Thought:|" s || prefix "|Final Answer:|" s || Re.at_dollar s.

Definition final_answer_tail (s : string) : bool :=
  prefix "|Thought:|" s || prefix "|Action:|" s || Re.at_dollar s.

Definition group1 (m : option string) : string :=
  match m with
  | Some g => Py.strip g
  | None => ""
  end.

Definition parse_output (output : string)
  : string * option (string * string) * string :=
  let thought_match := Re.search "|Thought:|" thought_tail output in
  let action_match := Re.search "|Action:|" action_tail output in
  let final_answer_match :=
    Re.search "|Final Answer:|" final_answer_tail output in
  let thought := group1 thought_match in
  let action_str := group1 action_match in
  let final_answer := group1 final_answer_match in
  let action :=
    if Py.truthy action_str then
      match Py.partition ":" action_str with
      | Some (tool, arg) => Some (Py.strip tool, Py.strip arg)
      | None => None
      end
    else None in
  (thought, action, final_answer).

Section Agent.
Context (E : Env).

Definition run_shell_command (command : string) : M E string :=
  result <- subprocess_run command (Some 30%Z) ;;
  match result with
  | CompletedProcess rc out err =>
      if (rc =? 0)%Z then ret (Py.strip out)
      else ret ("Error: " ++ Py.strip err)
  | Raise (TimeoutExpired _ _) => ret "action execution failed with timeout"
  | Raise e => ret ("Exception: " ++ str e)
  end.

Definition TOOLS : list (string * (string -> M E string)) :=
  [("run_shell_command", run_shell_command)].

Definition get_llm_response (history : list message) : M E (list string) :=
  chat_stream "llama3.1:8b" history.

Definition accumulate (chunks : list string) : string :=
  fold_left append chunks "".

(** [get_context_window_size()]: asks [ollama show] for the model's
    context length.  The number it reads only feeds the utilisation
    display, so the embedding keeps the call and drops the number. *)
Definition get_context_window_size (model_name : string) : M E unit :=
  _ <- subprocess_run ("ollama show " ++ model_name) None ;;
  ret tt.

Definition dispatch (history : list message) (full_response : string)
  (action : option (string * string))
  : M E (flow (string * list message)) :=
  match action with
  | Some (tool_name, arg) =>
      match dict_get tool_name TOOLS with
      | Some tool =>
          observation <- tool arg ;;
          ret (Next (history ++
                       [assistant_msg full_response;
                        user_msg ("Observation: " ++ observation)]))
      | None => ret (Next history)
      end
  | None => ret (Next (history ++ [assistant_msg full_response]))
  end.

Definition iteration (history : list message)
  : M E (flow (string * list message)) :=
  chunks <- get_llm_response history ;;
  let full_response := accumulate chunks in
  let '(thought, action, final_answer) := parse_output full_response in
  if Py.truthy final_answer then ret (Return (final_answer, history))
  else dispatch history full_response action.

Fixpoint loop (steps : nat) (history : list message)
  : M E (string * list message) :=
  match steps with
  | O => ret ("Max steps reached without final answer.", history)
  | S steps' =>
      f <- iteration history ;;
      match f with
      | Return result => ret result
      | Next history' => loop steps' history'
      end
  end.

Definition run_agent (query : string) (max_steps : Z)
  : M E (string * list message) :=
  _ <- get_context_window_size "llama3.1:8b" ;;
  loop (Z.to_nat max_steps) [system_msg SYSTEM_PROMPT; user_msg query].

End Agent.
End Agent4.

(** * [6.agent-streaming-styled-final-check-safeguards.py] *)

Module Agent6.

Definition SYSTEM_PROMPT : string := "
You are an AI agent that solves tasks iteratively using Reasoning and Acting (ReAct).
Your response MUST be in the following format for each step:
|Thought:| [Your reasoning process here]
ONE OF THE FOLLOWING ELEMENTS:
|Action:| [tool_name: argument]
OR 
|Final Answer:| [your final answer]

Explanaition about these possible output sections:
- |Thought:| Reason step-by-step about what to do next.
- |Action:| If needed, call a tool in the format 'tool_name: argument'. Available tools: run_shell_command (e.g., 'run_shell_command: ls -l /home').
- If you have the final answer, output '|Final Answer:| [your answer]'.

You can't have multiple instances of |Thought:| in one response, make all the toughts appear in |Thought:| element.
Make sure to never provide both |Action:| and |Final Answer:| elements in one response.
Even if action to perform is none, do not add |Action:| section to the respose.
Do not repeat actions unnecessarily. Stop when the query is solved.
Do not try to install additional software on the computer where you are being executed.
".

(** The tails [\|?\s*(?:\|Action:|\|Final Answer:|$)] and its siblings. *)
Definition thought_tail : string -> bool :=
  Re.opt_bar_then (Re.spaces_then (fun s =>
    prefix "|Action:" s || prefix "|Final Answer:" s || Re.at_dollar s)).

Definition action_tail : string -> bool :=
  Re.opt_bar_then (Re.spaces_then (fun s =>
    prefix "|Thought:" s || prefix "|Final Answer:" s || Re.at_dollar s)).

Definition final_answer_tail : string -> bool :=
  Re.opt_bar_then (Re.spaces_then (fun s =>
    prefix "|Thought:" s || prefix "|Action:" s || Re.at_dollar s)).

Definition group1 (m : option string) : string :=
  match m with
  | Some g => Py.strip g
  | None => ""
  end.

Definition parse_output (output : string)
  : string * option (string * string) * string :=
  let thought_match := Re.search "|Thought:|" thought_tail output in
  let action_match := Re.search "|Action:|" action_tail output in
  let final_answer_match :=
    Re.search "|Final Answer:|" final_answer_tail output in
  let thought := group1 thought_match in
  let action_str := group1 action_match in
  let final_answer := group1 final_answer_match in
  let action :=
    if Py.truthy action_str then
      match Py.partition ":" action_str with
      | Some (tool, arg) => Some (Py.strip tool, Py.strip arg)
      | None => None
      end
    else None in
  (thought, action, final_answer).

(** [re.search(r"\|Better Answer:\|(.*?)$", ..., re.DOTALL)] and, on a
    match, [.group(1).strip()]. *)
Definition better_answer (verification_response : string) : option string :=
  match Re.search "|Better Answer:|" Re.at_dollar verification_response with
  | Some g => Some (Py.strip g)
  | None => None
  end.

(** The f-string [prompt] of [is_command_safe]. *)
Definition safety_prompt (command : string) : string :=
  "You have suggested to execute the following command as part of resolving user query: "
  ++ command ++
  ". Is it possible that the command alters user system in an irreversible manner resulting in data loss or system instability. Please answer POSSIBLE or NOT POSSIBLE.".

Definition nl : string := String Py.newline "".

(** The f-string [verification_prompt] of the final check. *)
Definition verification_prompt (query : string) (history : list message)
  (final_answer : string) : string :=
  let steps_string :=
    Py.join nl (map (fun msg => role msg ++ ": " ++ content msg) history) in
  "Original ask was: " ++ query ++ nl ++
  "Final answer is: " ++ final_answer ++ nl ++
  "Steps are:" ++ nl ++
  steps_string ++ nl ++
  nl ++
  "Is this a good answer given the request? If you have better answer please respond with |Better Answer:| element.".

Section Agent.
Context (E : Env).

Definition run_shell_command (command : string) : M E string :=
  result <- subprocess_run command (Some 30%Z) ;;
  match result with
  | CompletedProcess rc out err =>
      if (rc =? 0)%Z then ret (Py.strip out)
      else ret ("Error: " ++ Py.strip err)
  | Raise (TimeoutExpired _ _) => ret "action execution failed with timeout"
  | Raise e => ret ("Exception: " ++ str e)
  end.

Definition TOOLS : list (string * (string -> M E string)) :=
  [("run_shell_command", run_shell_command)].

Definition get_llm_response (history : list message) : M E (list string) :=
  chat_stream "gemma3:12b" history.

Definition accumulate (chunks : list string) : string :=
  fold_left append chunks "".

Definition is_command_safe (command : string) : M E bool :=
  let prompt := safety_prompt command in
  let safeguard_history := [user_msg prompt] in
  chunks <- get_llm_response safeguard_history ;;
  let response := accumulate chunks in
  let clean_response := Py.upper (Py.strip response) in
  if Py.startswith "NOT POSSIBLE" clean_response then ret true
  else ret false.

(** The final verification step, entered with a non-empty [final_answer]. *)
Definition final_check (query : string) (history : list message)
  (final_answer : string) : M E string :=
  let verification_history :=
    [user_msg (verification_prompt query history final_answer)] in
  chunks <- get_llm_response verification_history ;;
  let verification_response := accumulate chunks in
  match better_answer verification_response with
  | Some better => ret better
  | None => ret final_answer
  end.

Definition dispatch (history : list message) (full_response : string)
  (action : option (string * string)) : M E (flow string) :=
  match action with
  | Some (tool_name, arg) =>
      match dict_get tool_name TOOLS with
      | Some tool =>
          safe <- (if String.eqb tool_name "run_shell_command"
                   then is_command_safe arg else ret true) ;;
          if negb safe then
            let observation :=
              "Error: Command '" ++ arg ++
              "' was blocked by the safety guard as potentially harmful. The command was not executed." in
            ret (Next (history ++
                         [assistant_msg full_response;
                          user_msg ("Observation: " ++ observation)]))
          else
            observation <- tool arg ;;
            ret (Next (history ++
                         [assistant_msg full_response;
                          user_msg ("Observation: " ++ observation)]))
      | None =>
          let observation := "Error: Unknown tool: " ++ tool_name in
          ret (Next (history ++
                       [assistant_msg full_response;
                        user_msg ("Observation: " ++ observation)]))
      end
  | None => ret (Next (history ++ [assistant_msg full_response]))
  end.

(** The body of [for step in range(max_steps)]. *)
Definition iteration (query : string) (history : list message)
  : M E (flow string) :=
  chunks <- get_llm_response history ;;
  let full_response := accumulate chunks in
  if Py.contains "|Action:|" full_response
     && Py.contains "|Final Answer:|" full_response
  then ret (Next history)
  else
    let '(thought, action, final_answer) := parse_output full_response in
    if Py.truthy final_answer then
      answer <- final_check query history final_answer ;;
      ret (Return answer)
    else dispatch history full_response action.

Fixpoint loop (query : string) (steps : nat) (history : list message)
  : M E string :=
  match steps with
  | O => ret "Max steps reached without final answer."
  | S steps' =>
      f <- iteration query history ;;
      match f with
      | Return answer => ret answer
      | Next history' => loop query steps' history'
      end
  end.

Definition run_agent (query : string) (max_steps : Z) : M E string :=
  loop query (Z.to_nat max_steps)
    [system_msg SYSTEM_PROMPT; user_msg query].

End Agent.
End Agent6.

(** * Two concrete hosts *)

(** A host that replays a script: the backend's replies in order, then
    empty replies; the children's runs in order, then launch failures. *)
Module Replay.

Record script := { replies : list (list string); runs : list launch }.

Definition next_reply (w : script) : list string * script :=
  match replies w with
  | r :: rest => (r, {| replies := rest; runs := runs w |})
  | [] => ([], w)
  end.

Definition next_run (w : script) : launch * script :=
  match runs w with
  | l :: rest => (l, {| replies := replies w; runs := rest |})
  | [] => (Failed "no such file or directory", w)
  end.

Definition env : Env := {|
  World := script;
  ollama_chat := fun _ _ w =>
    let (r, w') := next_reply w in (fold_left append r "", w');
  ollama_chat_stream := fun _ _ w => next_reply w;
  shell := fun _ w => next_run w
|}.

Definition start (w : script) : state env :=
  {| world := w : World env; trace := [] |}.

End Replay.

(** A host whose backend gives the same reply to every call and whose
    children all behave alike. *)
Module Constant.

Definition env (reply : list string) (l : launch) : Env := {|
  World := unit;
  ollama_chat := fun _ _ w => (fold_left append reply "", w);
  ollama_chat_stream := fun _ _ w => (reply, w);
  shell := fun _ w => (l, w)
|}.

Definition start (reply : list string) (l : launch) : state (env reply l) :=
  {| world := tt : World (env reply l); trace := [] |}.

End Constant.

(** * Vocabulary of the statements *)

(** A text made of whitespace only. *)
Fixpoint all_space (s : string) : bool :=
  match s with
  | EmptyString => true
  | String c s' => Py.isspace c && all_space s'
  end.

(** An Observation turn, as every variant writes it. *)
Definition is_observation (m : message) : bool :=
  String.eqb (role m) "user" && Py.startswith "Observation: " (content m).

(** An assistant turn in which the parser finds an action request. *)
Definition carries_action {T F : Type}
  (parse : string -> T * option (string * string) * F) (m : message) : bool :=
  String.eqb (role m) "assistant" &&
  match snd (fst (parse (content m))) with
  | Some _ => true
  | None => false
  end.

(** No action request is left unanswered: every turn that carries one is
    followed at once by an Observation turn. *)
Fixpoint no_orphan {T F : Type}
  (parse : string -> T * option (string * string) * F)
  (history : list message) : bool :=
  match history with
  | [] => true
  | m :: rest =>
      (negb (carries_action parse m) ||
       match rest with
       | o :: _ => is_observation o
       | [] => false
       end)
      && no_orphan parse rest
  end.

(** The histories sent to the backend, in order. *)
Fixpoint chats (t : list event) : list (list message) :=
  match t with
  | [] => []
  | Chat _ h :: t' => h :: chats t'
  | Shell _ _ :: t' => chats t'
  | Kill _ :: t' => chats t'
  end.

(** The command lines handed to the shell, in order. *)
Fixpoint shells (t : list event) : list string :=
  match t with
  | [] => []
  | Chat _ _ :: t' => shells t'
  | Shell c _ :: t' => c :: shells t'
  | Kill _ :: t' => shells t'
  end.

(** Each history in the list extends the one before it. *)
Fixpoint growing (hs : list (list message)) : Prop :=
  match hs with
  | [] => True
  | h :: rest =>
      match rest with
      | [] => True
      | h' :: _ => exists t, h' = (h ++ t)%list
      end
      /\ growing rest
  end.

(** A trace read backwards, latest event first: every command was run
    under the 30-unit ceiling, and the event just before it is the safety
    gate's question about that very command. *)
Fixpoint gated_back (r : list event) : Prop :=
  match r with
  | [] => True
  | Chat _ _ :: r' => gated_back r'
  | Kill _ :: r' => gated_back r'
  | Shell command timeout :: r' =>
      timeout = Some 30%Z /\
      (exists r'',
          r' = Chat "gemma3:12b" [user_msg (Agent6.safety_prompt command)]
               :: r'') /\
      gated_back r'
  end.

Definition gated (t : list event) : Prop := gated_back (rev t).

(** A history that ends with the assistant turn asking for [command]
    and, right after it, an Observation turn. *)
Definition observes {T F : Type}
  (parse : string -> T * option (string * string) * F)
  (command : string) (history : list message) : Prop :=
  exists earlier full_response tool_name observation,
    history = (earlier ++
                 [assistant_msg full_response;
                  user_msg ("Observation: " ++ observation)])%list /\
    snd (fst (parse full_response)) = Some (tool_name, command).

(** A trace in which every action taken up is reported to the model:
    [due] is what the next history sent to the backend owes.  After a
    command was run, and after a safety question about a command
    ([asks]), the next history sent must end with that action's turn and
    its Observation. *)
Fixpoint reported {T F : Type}
  (parse : string -> T * option (string * string) * F)
  (asks : list message -> string -> Prop)
  (due : list message -> Prop) (t : list event) : Prop :=
  match t with
  | [] => True
  | Chat _ h :: t' =>
      due h /\
      reported parse asks
        (fun h' => forall command, asks h command -> observes parse command h')
        t'
  | Shell command _ :: t' => reported parse asks (observes parse command) t'
  | Kill _ :: t' => reported parse asks due t'
  end.

(** The safety gate's question about a command, in file 6; files 1 to 4
    ask none. *)
Definition asks_gate (h : list message) (command : string) : Prop :=
  h = [user_msg (Agent6.safety_prompt command)].

Definition asks_nothing (h : list message) (command : string) : Prop := False.

(** * Facts about the text operations *)

Module PyFacts.
Import Py.

Lemma prefix_app (p r : string) : prefix p (p ++ r) = true.
Proof.
  induction p as [|c p IH]; simpl.
  - now destruct r.
  - destruct (ascii_dec c c) as [_|n]; [exact IH | now destruct n].
Qed.

Lemma prefix_split (p s : string) :
  prefix p s = true -> s = p ++ slice_from (String.length p) s.
Proof.
  revert s; induction p as [|c p IH]; intros s H.
  - reflexivity.
  - destruct s as [|d s]; simpl in H; [discriminate|].
    destruct (ascii_dec c d) as [->|]; [|discriminate].
    simpl. f_equal. now apply IH.
Qed.

Lemma prefix_iff (p s : string) :
  prefix p s = true <-> exists r, s = p ++ r.
Proof.
  split.
  - intros H. eexists. now apply prefix_split.
  - intros [r ->]. apply prefix_app.
Qed.

Lemma slice_from_app (p r : string) : slice_from (String.length p) (p ++ r) = r.
Proof. induction p; simpl; auto. Qed.

Lemma append_nil_r (s : string) : s ++ "" = s.
Proof. induction s; simpl; congruence. Qed.

Lemma append_assoc (a b c : string) : (a ++ b) ++ c = a ++ b ++ c.
Proof. induction a; simpl; congruence. Qed.

Lemma all_space_app (a b : string) :
  all_space (a ++ b) = all_space a && all_space b.
Proof.
  induction a as [|c a IH]; simpl; [reflexivity|].
  now rewrite IH, andb_assoc.
Qed.

(** ** [upper] *)



(** ** [lstrip], [rstrip], [strip] *)

Lemma lstrip_split (s : string) :
  exists ws, s = ws ++ lstrip s /\ all_space ws = true.
Proof.
  induction s as [|c s (ws & IH & Hws)]; simpl.
  - exists "". split; reflexivity.
  - destruct (isspace c) eqn:Hc.
    + exists (String c ws). simpl. rewrite Hc, Hws.
      split; [congruence | reflexivity].
    + exists "". split; reflexivity.
Qed.

Lemma rstrip_split (s : string) :
  exists ws, s = rstrip s ++ ws /\ all_space ws = true.
Proof.
  induction s as [|c s (ws & IH & Hws)]; simpl.
  - exists "". split; reflexivity.
  - destruct (rstrip s) as [|d r] eqn:Hr.
    + destruct (isspace c) eqn:Hc.
      * exists (String c ws). simpl in *. rewrite Hc, Hws.
        split; [congruence | reflexivity].
      * exists ws. simpl in *. split; [congruence | assumption].
    + exists ws. simpl in *. split; [congruence | assumption].
Qed.

Lemma lstrip_all_space (s : string) : all_space s = true -> lstrip s = "".
Proof.
  induction s as [|c s IH]; simpl; [reflexivity|].
  intros H. apply andb_true_iff in H as [-> H]. auto.
Qed.

Lemma rstrip_all_space (s : string) : all_space s = true -> rstrip s = "".
Proof.
  induction s as [|c s IH]; simpl; [reflexivity|].
  intros H. apply andb_true_iff in H as [-> H]. now rewrite IH.
Qed.

Lemma strip_all_space (s : string) : all_space s = true -> strip s = "".
Proof. intros H. unfold strip. now rewrite lstrip_all_space. Qed.

Lemma lstrip_nonspace (c : ascii) (s : string) :
  isspace c = false -> lstrip (String c s) = String c s.
Proof. intros H. simpl. now rewrite H. Qed.


Lemma rstrip_app (a b : string) :
  rstrip (a ++ b) =
  match rstrip b with
  | EmptyString => rstrip a
  | _ => a ++ rstrip b
  end.
Proof.
  induction a as [|c a IH]; simpl.
  - now destruct (rstrip b).
  - rewrite IH. destruct (rstrip b); [reflexivity|].
    now destruct a.
Qed.

Lemma rstrip_app_space (s ws : string) :
  all_space ws = true -> rstrip (s ++ ws) = rstrip s.
Proof. intros H. now rewrite rstrip_app, (rstrip_all_space ws H). Qed.

Lemma lstrip_app_r (s ws : string) :
  all_space ws = true -> rstrip (lstrip (s ++ ws)) = rstrip (lstrip s).
Proof.
  intros H. induction s as [|c s IH]; simpl.
  - now rewrite (lstrip_all_space ws H).
  - destruct (isspace c); [exact IH|].
    change (String c (s ++ ws)) with (String c s ++ ws).
    now apply rstrip_app_space.
Qed.

Lemma strip_app_space (s ws : string) :
  all_space ws = true -> strip (s ++ ws) = strip s.
Proof. apply lstrip_app_r. Qed.

(** ** [in] and [partition] *)

Lemma partition_eq (sep s : string) :
  partition sep s =
  if prefix sep s then Some ("", slice_from (String.length sep) s)
  else
    match s with
    | EmptyString => None
    | String c s' =>
        match partition sep s' with
        | Some (before, after) => Some (String c before, after)
        | None => None
        end
    end.
Proof. destruct s; reflexivity. Qed.

Lemma contains_eq (sub s : string) :
  contains sub s =
  prefix sub s ||
  match s with
  | EmptyString => false
  | String _ s' => contains sub s'
  end.
Proof. destruct s; reflexivity. Qed.

Lemma partition_split (sep s before after : string) :
  partition sep s = Some (before, after) -> s = before ++ sep ++ after.
Proof.
  revert before; induction s as [|c s IH]; intros before;
    rewrite partition_eq; destruct (prefix sep _) eqn:Hp.
  - intros H; injection H as <- <-. now apply prefix_split.
  - discriminate.
  - intros H; injection H as <- <-. now apply prefix_split.
  - destruct (partition sep s) as [[b a]|]; [|discriminate].
    intros H; injection H as <- <-. simpl. f_equal. now apply IH.
Qed.

Lemma contains_partition (sep s : string) :
  contains sep s = false <-> partition sep s = None.
Proof.
  induction s as [|c s IH]; rewrite partition_eq, contains_eq;
    destruct (prefix sep _); simpl; try (split; congruence).
  rewrite IH. destruct (partition sep s) as [[b a]|]; split; congruence.
Qed.

Lemma contains_app (sep a b : string) : contains sep (a ++ sep ++ b) = true.
Proof.
  induction a as [|c a IH].
  - rewrite contains_eq. simpl append. now rewrite prefix_app.
  - change (String c a ++ sep ++ b) with (String c (a ++ sep ++ b)).
    rewrite contains_eq, IH. apply orb_true_r.
Qed.

End PyFacts.

(** * Facts about the regular expressions *)

Module ReFacts.
Import Py PyFacts Re.

Lemma lazy_group_eq (tail : string -> bool) (s : string) :
  lazy_group tail s =
  if tail s then Some ""
  else
    match s with
    | EmptyString => None
    | String c s' => option_map (String c) (lazy_group tail s')
    end.
Proof. destruct s; reflexivity. Qed.

Lemma search_eq (marker : string) (tail : string -> bool) (s : string) :
  search marker tail s =
  match
    (if prefix marker s
     then lazy_group tail (slice_from (String.length marker) s)
     else None)
  with
  | Some g => Some g
  | None =>
      match s with
      | EmptyString => None
      | String _ s' => search marker tail s'
      end
  end.
Proof. destruct s; reflexivity. Qed.

(** A tail that accepts the end of the text lets the group stop at last. *)
Lemma lazy_group_total (tail : string -> bool) (s : string) :
  tail "" = true -> exists g, lazy_group tail s = Some g.
Proof.
  intros Hend. induction s as [|c s [g IH]]; rewrite lazy_group_eq.
  - rewrite Hend. now exists "".
  - destruct (tail (String c s)); [now exists ""|].
    rewrite IH. now exists (String c g).
Qed.

(** The group is a prefix of the text, and the tail matches right after. *)
Lemma lazy_group_prefix (tail : string -> bool) (s g : string) :
  lazy_group tail s = Some g -> exists r, s = g ++ r /\ tail r = true.
Proof.
  revert g; induction s as [|c s IH]; intros g; rewrite lazy_group_eq.
  - destruct (tail "") eqn:Ht; [|discriminate].
    intros H; injection H as <-. now exists "".
  - destruct (tail (String c s)) eqn:Ht.
    + intros H; injection H as <-. now exists (String c s).
    + destruct (lazy_group tail s) as [g'|]; [|discriminate].
      intros H; injection H as <-.
      destruct (IH g' eq_refl) as (r & -> & Hr). now exists r.
Qed.

Lemma lazy_group_here (tail : string -> bool) (s : string) :
  tail s = true -> lazy_group tail s = Some "".
Proof. intros H. now rewrite lazy_group_eq, H. Qed.

(** With such a tail the search succeeds at the first occurrence of the
    marker and nowhere else. *)
Lemma search_partition (marker : string) (tail : string -> bool) (s : string) :
  tail "" = true ->
  search marker tail s =
  match partition marker s with
  | Some (_, after) => lazy_group tail after
  | None => None
  end.
Proof.
  intros Hend. induction s as [|c s IH];
    rewrite search_eq, partition_eq; destruct (prefix marker _).
  - destruct (lazy_group_total tail (slice_from (String.length marker) "") Hend)
      as [g ->]. reflexivity.
  - reflexivity.
  - destruct (lazy_group_total tail
                (slice_from (String.length marker) (String c s)) Hend)
      as [g Hg]. rewrite Hg. reflexivity.
  - rewrite IH. now destruct (partition marker s) as [[b a]|].
Qed.

Lemma search_absent (marker : string) (tail : string -> bool) (s : string) :
  contains marker s = false -> search marker tail s = None.
Proof.
  induction s as [|c s IH]; rewrite search_eq, contains_eq;
    destruct (prefix marker _); simpl; try discriminate; auto.
Qed.

Lemma at_dollar_space (r : string) : at_dollar r = true -> all_space r = true.
Proof.
  destruct r as [|c [|d r]]; simpl; try discriminate; [reflexivity|].
  intros H. apply Ascii.eqb_eq in H as ->. reflexivity.
Qed.

(** Stopping at [$] loses at most one final newline, which [strip] would
    have removed anyway. *)
Lemma lazy_group_dollar (s g : string) :
  lazy_group at_dollar s = Some g -> strip g = strip s.
Proof.
  intros H. apply lazy_group_prefix in H as (r & -> & Hr).
  symmetry. apply strip_app_space. now apply at_dollar_space.
Qed.

End ReFacts.

(** * The safety gate ([6.agent-streaming-styled-final-check-safeguards.py]) *)

Module GateFacts.
Import Py PyFacts.




End GateFacts.




(** The other replies named by the specification get the verdict it says. *)
Example is_command_safe_examples :
  let verdict reply :=
    fst (Agent6.is_command_safe _ "ls" (Constant.start [reply] (Failed ""))) in
  verdict "NOT POSSIBLE" = true /\ verdict "  not possible " = true /\
  verdict "POSSIBLE" = false /\ verdict "" = false /\ verdict "maybe" = false.
Proof. repeat split; reflexivity. Qed.

(** * The answer verifier ([6.agent-streaming-styled-final-check-safeguards.py]) *)

Module VerifierFacts.
Import Py PyFacts Re ReFacts.

(** What [better_answer] reads: nothing when the marker is absent, else
    the trimmed text after its first occurrence. *)
Lemma better_answer_partition (v : string) :
  Agent6.better_answer v =
  match partition "|Better Answer:|" v with
  | Some (_, after) => Some (strip after)
  | None => None
  end.
Proof.
  unfold Agent6.better_answer.
  rewrite search_partition by reflexivity.
  destruct (partition _ v) as [[before after]|]; [|reflexivity].
  destruct (lazy_group_total at_dollar after eq_refl) as [g Hg].
  rewrite Hg. f_equal. now apply lazy_group_dollar.
Qed.

End VerifierFacts.

(** C7: when the verification response holds no [|Better Answer:|] marker
    the verifier returns the candidate answer itself; when it holds one,
    the verifier returns the (trimmed) text that follows the marker's first
    occurrence, in place of the candidate. *)
Theorem final_check_result (E : Env) (query : string) (history : list message)
  (final_answer : string) (s : state E) :
  let verification_response :=
    Agent6.accumulate
      (fst (ollama_chat_stream E "gemma3:12b"
              [user_msg (Agent6.verification_prompt query history final_answer)]
              (world s))) in
  (Py.contains "|Better Answer:|" verification_response = false ->
   fst (Agent6.final_check E query history final_answer s) = final_answer)
  /\
  (forall before after,
     Py.partition "|Better Answer:|" verification_response
       = Some (before, after) ->
     fst (Agent6.final_check E query history final_answer s) = Py.strip after).
Proof.
  intros v. subst v.
  unfold Agent6.final_check, Agent6.get_llm_response, chat_stream, bind, ret.
  destruct (ollama_chat_stream E _ _ (world s)) as [chunks w]. simpl.
  rewrite VerifierFacts.better_answer_partition. split.
  - intros H. apply PyFacts.contains_partition in H. now rewrite H.
  - intros before after H. now rewrite H.
Qed.

Lemma final_check_result_witness :
  fst (Agent6.final_check _ "What is 2+2?" [] "4"
         (Constant.start ["The answer "; "is fine."] (Failed ""))) = "4"
  /\
  fst (Agent6.final_check _ "What is 2+2?" [] "4"
         (Constant.start ["Too terse. |Better Answer:| 2+2 is 4
"] (Failed ""))) = "2+2 is 4".
Proof.
  split.
  - apply (proj1 (final_check_result _ "What is 2+2?" [] "4"
                    (Constant.start ["The answer "; "is fine."] (Failed "")))).
    reflexivity.
  - apply (proj2 (final_check_result _ "What is 2+2?" [] "4"
                    (Constant.start ["Too terse. |Better Answer:| 2+2 is 4
"] (Failed "")))
             "Too terse. " " 2+2 is 4
").
    reflexivity.
Defined.

(** * The action executor *)

Module ExecutorFacts.

(** What [subprocess.run] hands back, by the child's fate. *)
Lemma subprocess_run_result (E : Env) (command : string) (timeout : option Z)
  (s : state E) :
  fst (subprocess_run command timeout s) =
  match fst (shell E command (world s)) with
  | Failed description => Raise (OtherException description)
  | Started p =>
      match timeout with
      | Some limit =>
          if (limit <? elapsed p)%Z then Raise (TimeoutExpired command limit)
          else CompletedProcess (returncode p) (stdout p) (stderr p)
      | None => CompletedProcess (returncode p) (stdout p) (stderr p)
      end
  end.
Proof.
  unfold subprocess_run.
  destruct (shell E command (world s)) as [[p|d] w]; simpl; [|reflexivity].
  destruct timeout as [limit|]; [|reflexivity].
  now destruct (limit <? elapsed p)%Z.
Qed.

Lemma bind_fst {E : Env} {A B : Type} (m : M E A) (f : A -> M E B)
  (s : state E) :
  fst ((x <- m ;; f x) s) = fst (f (fst (m s)) (snd (m s))).
Proof. unfold bind. now destruct (m s). Qed.

End ExecutorFacts.

(** C6: in [1.agent.py], a child that exits with status zero yields its
    trimmed standard output, one that exits with another status yields
    [Error: ] followed by its trimmed standard error, and a fault of the
    launch yields [Exception: ] followed by the fault's description; in
    each case a string is returned, nothing is raised. *)
Theorem run_shell_command_result (E : Env) (command : string) (s : state E) :
  let observation := fst (Agent1.run_shell_command E command s) in
  (forall p, fst (shell E command (world s)) = Started p ->
             returncode p = 0%Z ->
             observation = Py.strip (stdout p))
  /\
  (forall p, fst (shell E command (world s)) = Started p ->
             returncode p <> 0%Z ->
             observation = "Error: " ++ Py.strip (stderr p))
  /\
  (forall description,
             fst (shell E command (world s)) = Failed description ->
             observation = "Exception: " ++ description).
Proof.
  intros observation. subst observation.
  unfold Agent1.run_shell_command.
  rewrite ExecutorFacts.bind_fst, ExecutorFacts.subprocess_run_result.
  split; [|split].
  - intros p -> Hrc. rewrite Hrc. reflexivity.
  - intros p -> Hrc. apply Z.eqb_neq in Hrc. now rewrite Hrc.
  - intros d ->. reflexivity.
Qed.

Lemma run_shell_command_result_witness :
  let ok := {| elapsed := 1; returncode := 0; stdout := "/home/user
"; stderr := "" |} in
  let ko := {| elapsed := 1; returncode := 2; stdout := "";
               stderr := "ls: cannot access '/nowhere'
" |} in
  let fault := "[Errno 2] No such file: '/bin/sh'" in
  fst (Agent1.run_shell_command _ "pwd" (Constant.start [] (Started ok)))
    = "/home/user"
  /\
  fst (Agent1.run_shell_command _ "ls /nowhere"
         (Constant.start [] (Started ko)))
    = "Error: ls: cannot access '/nowhere'"
  /\
  fst (Agent1.run_shell_command _ "pwd" (Constant.start [] (Failed fault)))
    = "Exception: [Errno 2] No such file: '/bin/sh'".
Proof.
  intros ok ko fault. split; [|split].
  - exact (proj1 (run_shell_command_result _ "pwd"
                    (Constant.start [] (Started ok))) ok eq_refl eq_refl).
  - refine (proj1 (proj2 (run_shell_command_result _ "ls /nowhere"
                            (Constant.start [] (Started ko)))) ko eq_refl _).
    discriminate.
  - exact (proj2 (proj2 (run_shell_command_result _ "pwd"
                           (Constant.start [] (Failed fault)))) fault eq_refl).
Defined.




(** * The line parser of [1.agent.py] and the regex parser of [2.agent-streaming.py] *)

Module ParserFacts.
Import Py PyFacts Re ReFacts.

Lemma split_cons (sep : ascii) (s : string) :
  exists line rest, split sep s = line :: rest.
Proof.
  induction s as [|c s (line & rest & IH)]; simpl.
  - now exists "", [].
  - destruct (Ascii.eqb c sep); [now exists "", (split sep s)|].
    rewrite IH. now exists (String c line), rest.
Qed.

(** The lines are the text: joining them back with newlines restores it. *)
Lemma join_split (s : string) :
  join (String newline "") (split newline s) = s.
Proof.
  induction s as [|c s IH]; simpl; [reflexivity|].
  destruct (Ascii.eqb c newline) eqn:Hc.
  - apply Ascii.eqb_eq in Hc as ->.
    destruct (split_cons newline s) as (line & rest & Hs).
    rewrite Hs in *. simpl in *. now rewrite IH.
  - destruct (split_cons newline s) as (line & rest & Hs).
    rewrite Hs in *. destruct rest; simpl in *; now rewrite IH.
Qed.

(** A line that opens with [Final Answer:] opens with neither other marker. *)
Lemma final_answer_line (line : string) :
  startswith "Final Answer:" line = true ->
  startswith "Thought:" line = false /\ startswith "Action:" line = false.
Proof.
  unfold startswith. destruct line as [|c line]; cbn [prefix].
  - intros H. discriminate H.
  - destruct (ascii_dec "F" c) as [<-|]; intros H; [|discriminate H].
    split; reflexivity.
Qed.

(** The loop of [parse_output] reaches the first line that opens with
    [Final Answer:] and takes everything from there on. *)
Lemma parse_lines_final (before after : list string) (line : string) :
  Forall (fun l => startswith "Final Answer:" l = false) before ->
  startswith "Final Answer:" line = true ->
  forall thought action,
    snd (Agent1.parse_lines (before ++ line :: after) thought action) =
    Some (join (String newline "") (strip (slice_from 13 line) :: after)).
Proof.
  intros Hbefore Hline.
  induction Hbefore as [|l before Hl _ IH]; intros thought action.
  - destruct (final_answer_line line Hline) as [Ht Ha].
    cbn [app Agent1.parse_lines]. now rewrite Ht, Ha, Hline.
  - cbn [app Agent1.parse_lines]. rewrite Hl.
    destruct (startswith "Thought:" l); [apply IH|].
    destruct (startswith "Action:" l); [|apply IH].
    destruct (partition ":" _) as [[tool arg]|]; apply IH.
Qed.

End ParserFacts.

(** C3, as the code has it: in the line parser of [1.agent.py], once a
    line opening with [Final Answer:] is met, the final answer is the
    trimmed rest of that line followed by every later line as it stands,
    whatever marker a later line opens with. *)
Theorem final_answer_absorbs_rest (output : string)
  (before after : list string) (line : string) :
  Py.split Py.newline (Py.strip output) = (before ++ line :: after)%list ->
  Forall (fun l => Py.startswith "Final Answer:" l = false) before ->
  Py.startswith "Final Answer:" line = true ->
  snd (Agent1.parse_output output) =
  Some (Py.join (String Py.newline "")
          (Py.strip (Py.slice_from 13 line) :: after)).
Proof.
  intros Hlines Hbefore Hline. unfold Agent1.parse_output.
  rewrite Hlines. now apply ParserFacts.parse_lines_final.
Qed.

Lemma final_answer_absorbs_rest_witness :
  snd (Agent1.parse_output "Thought: done
Final Answer:  4 files 
Action: run_shell_command: rm -rf /
Thought: again
") = Some "4 files
Action: run_shell_command: rm -rf /
Thought: again".
Proof.
  refine (final_answer_absorbs_rest "Thought: done
Final Answer:  4 files 
Action: run_shell_command: rm -rf /
Thought: again
" ["Thought: done"]
            ["Action: run_shell_command: rm -rf /"; "Thought: again"]
            "Final Answer:  4 files " eq_refl _ eq_refl).
  repeat constructor.
Defined.

(** C3, as the claim states it, fails for the regex parser of
    [2.agent-streaming.py]: the answer ends at the next [|Action:|] (or
    [|Thought:|]) marker and the text from there on is left out. *)
Lemma regex_final_answer_stops_at_marker :
  let output := "|Final Answer:| 42 |Action:| run_shell_command: ls" in
  Py.partition "|Final Answer:|" output
    = Some ("", " 42 |Action:| run_shell_command: ls") /\
  snd (Agent2.parse_output output) = "42" /\
  snd (Agent2.parse_output output)
    <> Py.strip " 42 |Action:| run_shell_command: ls".
Proof. repeat split. discriminate. Qed.

(** * The orchestration loops *)

Module LoopFacts.
Import Py PyFacts Re ReFacts.

Lemma chats_app (a b : list event) : chats (a ++ b) = (chats a ++ chats b)%list.
Proof.
  induction a as [|[model h|c t|c] a IH]; simpl;
    [reflexivity| |exact IH|exact IH].
  now rewrite IH.
Qed.

Lemma shells_app (a b : list event) :
  shells (a ++ b) = (shells a ++ shells b)%list.
Proof.
  induction a as [|[model h|c t|c] a IH]; simpl;
    [reflexivity|exact IH| |exact IH].
  now rewrite IH.
Qed.

(** The two primitives, spelled out. *)
Lemma chat_stream_eq (E : Env) (model : string) (h : list message)
  (s : state E) :
  chat_stream model h s =
  (fst (ollama_chat_stream E model h (world s)),
   {| world := snd (ollama_chat_stream E model h (world s));
      trace := trace s ++ [Chat model h] |}).
Proof.
  unfold chat_stream. now destruct (ollama_chat_stream E model h (world s)).
Qed.

(** What [subprocess.run] leaves in the trace: the command, and the
    killing of its child when, and only when, [TimeoutExpired] is raised. *)
Lemma subprocess_run_trace (E : Env) (command : string) (timeout : option Z)
  (s : state E) :
  exists kills,
    trace (snd (subprocess_run command timeout s))
    = (trace s ++ Shell command timeout :: kills)%list /\
    (kills = [] \/ kills = [Kill command]).
Proof.
  unfold subprocess_run.
  destruct (shell E command (world s)) as [[p|d] w];
    [|exists []; split; [reflexivity | now left]].
  destruct timeout as [limit|];
    [|exists []; split; [reflexivity | now left]].
  destruct (limit <? elapsed p)%Z.
  - exists [Kill command]. split; [reflexivity | now right].
  - exists []. split; [reflexivity | now left].
Qed.

Lemma subprocess_run_trace_none (E : Env) (command : string) (s : state E) :
  trace (snd (subprocess_run command None s))
  = (trace s ++ [Shell command None])%list.
Proof.
  unfold subprocess_run.
  now destruct (shell E command (world s)) as [[p|d] w].
Qed.

Lemma bind_eq {E : Env} {A B : Type} (m : M E A) (f : A -> M E B)
  (s : state E) :
  (x <- m ;; f x) s = f (fst (m s)) (snd (m s)).
Proof. unfold bind. now destruct (m s). Qed.

(** Absent markers leave the regex parsers empty-handed. *)
Lemma group1_absent (group1 : option string -> string) (marker : string)
  (tail : string -> bool) (s : string) :
  group1 None = "" ->
  contains marker s = false ->
  group1 (search marker tail s) = "".
Proof. intros Hg H. now rewrite search_absent. Qed.

Lemma search_present (marker : string) (tail : string -> bool) (s g : string) :
  search marker tail s = Some g -> contains marker s = true.
Proof.
  intros H. destruct (contains marker s) eqn:Hc; [reflexivity|].
  now rewrite search_absent in H.
Qed.

(** ** The invariant on histories *)

Section Orphans.
Context {T F : Type} (parse : string -> T * option (string * string) * F).

Lemma no_orphan_app (h t : list message) :
  no_orphan parse h = true -> no_orphan parse t = true ->
  no_orphan parse (h ++ t) = true.
Proof.
  intros Hh Ht. induction h as [|m rest IH]; [exact Ht|].
  cbn [app no_orphan] in *.
  apply andb_true_iff in Hh as [Hm Hrest].
  rewrite (IH Hrest), andb_true_r.
  destruct rest as [|o rest']; [|exact Hm].
  rewrite orb_false_r in Hm. now rewrite Hm.
Qed.

Lemma no_orphan_answered (h : list message) (full observation : string) :
  no_orphan parse h = true ->
  no_orphan parse
    (h ++ [assistant_msg full; user_msg ("Observation: " ++ observation)])
  = true.
Proof.
  intros Hh. apply no_orphan_app; [exact Hh|].
  cbn [no_orphan]. unfold is_observation, carries_action, startswith.
  cbn [role content user_msg]. rewrite prefix_app.
  change ("user" =? "user")%string with true.
  change ("user" =? "assistant")%string with false.
  cbn [andb negb orb]. now rewrite orb_true_r.
Qed.

Lemma no_orphan_plain (h : list message) (full : string) :
  no_orphan parse h = true ->
  snd (fst (parse full)) = None ->
  no_orphan parse (h ++ [assistant_msg full]) = true.
Proof.
  intros Hh Hnone. apply no_orphan_app; [exact Hh|].
  cbn [no_orphan]. unfold carries_action. cbn [role content assistant_msg].
  rewrite Hnone. now rewrite andb_false_r.
Qed.

Lemma no_orphan_user (prompt : string) :
  no_orphan parse [user_msg prompt] = true.
Proof. reflexivity. Qed.

Lemma no_orphan_start (system_prompt query : string) :
  no_orphan parse [system_msg system_prompt; user_msg query] = true.
Proof. reflexivity. Qed.

End Orphans.

End LoopFacts.

(** C2, as the code has it: in the loop of
    [6.agent-streaming-styled-final-check-safeguards.py], a reply that
    holds both an [|Action:|] and a [|Final Answer:|] marker ends the pass
    with the history as it was and with the model call as the only thing
    done: no command is run, no answer is returned, nothing is appended;
    the loop goes on with one step less. *)
Theorem malformed_turn_is_retried (E : Env) (query : string)
  (history : list message) (s : state E) :
  let reply := ollama_chat_stream E "gemma3:12b" history (world s) in
  let full_response := Agent6.accumulate (fst reply) in
  let s' := {| world := snd reply;
               trace := trace s ++ [Chat "gemma3:12b" history] |} in
  Py.contains "|Action:|" full_response = true ->
  Py.contains "|Final Answer:|" full_response = true ->
  Agent6.iteration E query history s = (Next history, s') /\
  forall steps,
    Agent6.loop E query (S steps) history s = Agent6.loop E query steps history s'.
Proof.
  intros reply full_response s' Haction Hfinal.
  assert (Hit : Agent6.iteration E query history s = (Next history, s')).
  { unfold Agent6.iteration, Agent6.get_llm_response.
    rewrite LoopFacts.bind_eq, LoopFacts.chat_stream_eq. cbn [fst snd].
    fold reply. fold full_response. now rewrite Haction, Hfinal. }
  split; [exact Hit|].
  intros steps. cbn [Agent6.loop]. now rewrite LoopFacts.bind_eq, Hit.
Qed.

Lemma malformed_turn_is_retried_witness :
  let reply := "|Thought:| done |Action:| run_shell_command: ls |Final Answer:| ok" in
  let r := Agent6.iteration _ "list files" [user_msg "list files"]
             (Constant.start [reply] (Failed "")) in
  fst r = Next [user_msg "list files"] /\
  trace (snd r) = [Chat "gemma3:12b" [user_msg "list files"]].
Proof.
  intros reply r.
  pose proof (proj1 (malformed_turn_is_retried _ "list files"
                       [user_msg "list files"]
                       (Constant.start [reply] (Failed ""))
                       eq_refl eq_refl)) as H.
  split.
  - exact (f_equal fst H).
  - exact (f_equal (fun x => trace (snd x)) H).
Defined.

(** C2, as the claim states it, fails in the loop of
    [4.agent-streaming-styled-context.py], which has no such check: a
    reply with both markers ends the run with its final answer, and when
    the answer part is empty its action is executed. *)
Lemma both_markers_are_parsed_without_check :
  let reply := "|Action:| run_shell_command: ls |Final Answer:| done" in
  let reply' := "|Final Answer:||Action:| run_shell_command: ls" in
  let ls := Started {| elapsed := 1; returncode := 0; stdout := "a.txt";
                       stderr := "" |} in
  (Py.contains "|Action:|" reply = true /\
   Py.contains "|Final Answer:|" reply = true /\
   fst (fst (Agent4.run_agent _ "list files" 10
               (Constant.start [reply] ls))) = "done") /\
  (Py.contains "|Action:|" reply' = true /\
   Py.contains "|Final Answer:|" reply' = true /\
   let r := Agent4.iteration _ [user_msg "list files"]
              (Constant.start [reply'] ls) in
   fst r = Next [user_msg "list files"; assistant_msg reply';
                 user_msg "Observation: a.txt"] /\
   shells (trace (snd r)) = ["ls"]).
Proof. repeat split. Qed.

Module Agent6Facts.
Import Py PyFacts Re ReFacts LoopFacts.

(** A parsed action comes from an [|Action:|] marker in the text. *)
Lemma parse_action_marker (output : string) (a : string * string) :
  snd (fst (Agent6.parse_output output)) = Some a ->
  contains "|Action:|" output = true.
Proof.
  unfold Agent6.parse_output. cbv zeta. cbn [fst snd].
  destruct (search "|Action:|" Agent6.action_tail output) as [g|] eqn:Hs.
  - intros _. now apply search_present in Hs.
  - cbn [Agent6.group1 truthy]. discriminate.
Qed.

Lemma parse6_final_absent (output : string) :
  contains "|Final Answer:|" output = false ->
  snd (Agent6.parse_output output) = "".
Proof.
  intros H. unfold Agent6.parse_output. cbv zeta. cbn [snd].
  now rewrite search_absent.
Qed.

(** The only registered tool. *)
Lemma tools_unknown (E : Env) (tool_name : string) :
  dict_get tool_name (Agent6.TOOLS E) = None <->
  tool_name <> "run_shell_command".
Proof.
  unfold Agent6.TOOLS. cbn [dict_get].
  destruct (String.eqb_spec tool_name "run_shell_command"); split;
    congruence.
Qed.

(** A well-formed turn with a final answer ends the run with what the
    final check returns. *)
Lemma iteration6_final (E : Env) (query : string) (history : list message)
  (s : state E) :
  let reply := ollama_chat_stream E "gemma3:12b" history (world s) in
  let full_response := Agent6.accumulate (fst reply) in
  let s' := {| world := snd reply;
               trace := trace s ++ [Chat "gemma3:12b" history] |} in
  contains "|Action:|" full_response = false ->
  truthy (snd (Agent6.parse_output full_response)) = true ->
  fst (Agent6.iteration E query history s) =
  Return (fst (Agent6.final_check E query history
                 (snd (Agent6.parse_output full_response)) s')).
Proof.
  intros reply full_response s' Haction Hfinal.
  unfold Agent6.iteration, Agent6.get_llm_response.
  rewrite bind_eq, chat_stream_eq. cbn [fst snd].
  fold reply. fold full_response. fold s'. rewrite Haction. cbn [andb].
  destruct (Agent6.parse_output full_response) as [[thought action] final].
  cbn [snd] in *. rewrite Hfinal, bind_eq. reflexivity.
Qed.

End Agent6Facts.

(** C8, as the code has it: in the loop of
    [6.agent-streaming-styled-final-check-safeguards.py], a turn (one not
    discarded as malformed) whose parsed action names a tool outside
    [TOOLS] is answered without running anything and without consulting
    the safety gate: the reply and the observation
    [Error: Unknown tool: <name>] are appended, and the loop goes on. *)
Theorem unknown_tool_is_reported (E : Env) (query : string)
  (history : list message) (s : state E) (tool_name arg : string) :
  let reply := ollama_chat_stream E "gemma3:12b" history (world s) in
  let full_response := Agent6.accumulate (fst reply) in
  let s' := {| world := snd reply;
               trace := trace s ++ [Chat "gemma3:12b" history] |} in
  Py.contains "|Final Answer:|" full_response = false ->
  snd (fst (Agent6.parse_output full_response)) = Some (tool_name, arg) ->
  dict_get tool_name (Agent6.TOOLS E) = None ->
  Agent6.iteration E query history s =
  (Next (history ++
           [assistant_msg full_response;
            user_msg ("Observation: Error: Unknown tool: " ++ tool_name)]),
   s')
  /\ shells (trace s') = shells (trace s).
Proof.
  intros reply full_response s' Hfinal Haction Hunknown. split.
  - unfold Agent6.iteration, Agent6.get_llm_response.
    rewrite LoopFacts.bind_eq, LoopFacts.chat_stream_eq. cbn [fst snd].
    fold reply. fold full_response. rewrite Hfinal, andb_false_r.
    pose proof (Agent6Facts.parse6_final_absent full_response Hfinal) as Hempty.
    destruct (Agent6.parse_output full_response) as [[thought action] final].
    cbn [fst snd] in *. subst final action. cbn [Py.truthy].
    unfold Agent6.dispatch. now rewrite Hunknown.
  - subst s'. cbn [trace]. rewrite LoopFacts.shells_app. cbn [shells].
    apply app_nil_r.
Qed.

Lemma unknown_tool_is_reported_witness :
  let reply := "|Thought:| look it up |Action:| web_search: rocq prover" in
  fst (Agent6.iteration _ "what is rocq" [user_msg "what is rocq"]
         (Constant.start [reply] (Failed "")))
  = Next [user_msg "what is rocq"; assistant_msg reply;
          user_msg "Observation: Error: Unknown tool: web_search"].
Proof.
  intros reply.
  exact (f_equal fst
           (proj1 (unknown_tool_is_reported _ "what is rocq"
                     [user_msg "what is rocq"]
                     (Constant.start [reply] (Failed ""))
                     "web_search" "rocq prover" eq_refl eq_refl eq_refl))).
Defined.

(** C8, as the claim states it, fails in the loop of [1.agent.py]: the
    unknown tool is only printed; no Observation turn and no assistant
    turn are appended, the history stays as it was. *)
Lemma unknown_tool_leaves_history_alone :
  let reply := "Thought: look it up
Action: web_search: rocq prover" in
  let r := Agent1.iteration _ [user_msg "what is rocq"]
             (Constant.start [reply] (Failed "")) in
  snd (fst (Agent1.parse_output reply)) = Some ("web_search", "rocq prover") /\
  dict_get "web_search" (Agent1.TOOLS (Constant.env [reply] (Failed ""))) = None /\
  fst r = Next [user_msg "what is rocq"] /\
  shells (trace (snd r)) = [].
Proof. repeat split. Qed.

Module Agent2Facts.
Import Py PyFacts Re ReFacts LoopFacts.

Lemma parse2_final_absent (output : string) :
  contains "|Final Answer:|" output = false ->
  snd (Agent2.parse_output output) = "".
Proof.
  intros H. unfold Agent2.parse_output. cbv zeta. cbn [snd].
  now rewrite search_absent.
Qed.

Lemma parse_action_absent (output : string) :
  contains "|Action:|" output = false ->
  snd (fst (Agent2.parse_output output)) = None.
Proof.
  intros H. unfold Agent2.parse_output. cbv zeta. cbn [fst snd].
  now rewrite search_absent.
Qed.

(** One pass of the loop, with the model call taken out. *)
Lemma iteration_eq (E : Env) (history : list message) (s : state E) :
  let reply := ollama_chat_stream E "llama3.1:8b" history (world s) in
  let full_response := Agent2.accumulate (fst reply) in
  let s' := {| world := snd reply;
               trace := trace s ++ [Chat "llama3.1:8b" history] |} in
  Agent2.iteration E history s =
  if truthy (snd (Agent2.parse_output full_response))
  then (Return (snd (Agent2.parse_output full_response)), s')
  else Agent2.dispatch E history full_response
         (snd (fst (Agent2.parse_output full_response))) s'.
Proof.
  intros reply full_response s'.
  unfold Agent2.iteration, Agent2.get_llm_response.
  rewrite bind_eq, chat_stream_eq. cbn [fst snd].
  fold reply. fold full_response. fold s'.
  destruct (Agent2.parse_output full_response) as [[thought action] final].
  cbn [fst snd]. now destruct (truthy final).
Qed.

(** A pass over a reply in which the parser finds neither an action nor a
    final answer: the reply is appended as an assistant turn, and the model
    call is all that happened. *)
Lemma iteration_plain (E : Env) (history : list message) (s : state E) :
  let reply := ollama_chat_stream E "llama3.1:8b" history (world s) in
  let full_response := Agent2.accumulate (fst reply) in
  snd (fst (Agent2.parse_output full_response)) = None ->
  snd (Agent2.parse_output full_response) = "" ->
  Agent2.iteration E history s =
  (Next (history ++ [assistant_msg full_response]),
   {| world := snd reply; trace := trace s ++ [Chat "llama3.1:8b" history] |}).
Proof.
  intros reply full_response Haction Hfinal.
  rewrite iteration_eq. fold reply. fold full_response.
  now rewrite Hfinal, Haction.
Qed.

(** With a backend whose replies never carry an action or a final answer,
    the loop runs out its steps: one model call per step, no command. *)
Lemma loop_exhausted (E : Env) :
  (forall history w,
      let out :=
        Agent2.accumulate (fst (ollama_chat_stream E "llama3.1:8b" history w)) in
      snd (fst (Agent2.parse_output out)) = None /\
      snd (Agent2.parse_output out) = "") ->
  forall steps history s,
    let r := Agent2.loop E steps history s in
    fst r = "Max steps reached without final answer." /\
    List.length (chats (trace (snd r)))
      = (List.length (chats (trace s)) + steps)%nat /\
    shells (trace (snd r)) = shells (trace s).
Proof.
  intros Hplain. induction steps as [|steps IH]; intros history s.
  - cbn. auto.
  - cbn [Agent2.loop]. rewrite bind_eq.
    destruct (Hplain history (world s)) as [Ha Hf].
    rewrite (iteration_plain E history s Ha Hf). cbn [fst snd].
    match goal with |- context [Agent2.loop E steps ?h ?s1] =>
      destruct (IH h s1) as (Hr & Hc & Hs) end.
    cbn [trace] in Hc, Hs. rewrite chats_app, length_app in Hc.
    rewrite shells_app in Hs. cbn in Hc, Hs. rewrite app_nil_r in Hs.
    repeat split; [exact Hr | lia | exact Hs].
Qed.

End Agent2Facts.

(** C4: in [2.agent-streaming.py], when every reply of the backend is
    plain text in which the parser finds no action and no final answer
    (as in any text free of the [|Action:|] and [|Final Answer:|]
    markers), [run_agent] ends with the exhaustion message after exactly
    [max_steps] passes of the loop, one model call each and no command
    run: [range(max_steps)] passes, so none for a negative [max_steps],
    and 10 when the argument is left out. *)
Theorem run_agent_exhausts_budget (E : Env) (query : string) (max_steps : Z)
  (w : World E) :
  (forall history w',
      let out :=
        Agent2.accumulate (fst (ollama_chat_stream E "llama3.1:8b" history w')) in
      snd (fst (Agent2.parse_output out)) = None /\
      snd (Agent2.parse_output out) = "") ->
  (let r := Agent2.run_agent E query max_steps (init w) in
   fst r = "Max steps reached without final answer." /\
   List.length (chats (trace (snd r))) = Z.to_nat max_steps /\
   shells (trace (snd r)) = [])
  /\
  (let r := Agent2.run_agent_default E query (init w) in
   fst r = "Max steps reached without final answer." /\
   List.length (chats (trace (snd r))) = 10%nat /\
   shells (trace (snd r)) = []).
Proof.
  intros Hplain. split.
  - unfold Agent2.run_agent.
    destruct (Agent2Facts.loop_exhausted E Hplain (Z.to_nat max_steps)
                [system_msg Agent2.SYSTEM_PROMPT; user_msg query] (init w))
      as (Hr & Hc & Hs).
    repeat split; [exact Hr | | exact Hs].
    rewrite Hc. reflexivity.
  - unfold Agent2.run_agent_default, Agent2.run_agent.
    destruct (Agent2Facts.loop_exhausted E Hplain (Z.to_nat 10)
                [system_msg Agent2.SYSTEM_PROMPT; user_msg query] (init w))
      as (Hr & Hc & Hs).
    repeat split; [exact Hr | | exact Hs].
    rewrite Hc. reflexivity.
Qed.

Lemma run_agent_exhausts_budget_witness :
  let r := Agent2.run_agent _ "What is 2+2?" 3
             (Constant.start ["|Thought:| let me "; "think"] (Failed "")) in
  fst r = "Max steps reached without final answer." /\
  List.length (chats (trace (snd r))) = 3%nat /\
  shells (trace (snd r)) = [].
Proof.
  refine (proj1 (run_agent_exhausts_budget
                   (Constant.env ["|Thought:| let me "; "think"] (Failed ""))
                   "What is 2+2?" 3 tt _)).
  intros history w'. split; reflexivity.
Defined.

(** Replies free of both markers are such plain text. *)
Lemma marker_free_is_plain (output : string) :
  Py.contains "|Action:|" output = false ->
  Py.contains "|Final Answer:|" output = false ->
  snd (fst (Agent2.parse_output output)) = None /\
  snd (Agent2.parse_output output) = "".
Proof.
  intros Ha Hf. split.
  - now apply Agent2Facts.parse_action_absent.
  - now apply Agent2Facts.parse2_final_absent.
Qed.

Module FallThroughFacts.
Import Py PyFacts Re ReFacts LoopFacts.

(** The answer read after a [|Final Answer:|] marker that is followed by
    whitespace only, or at once by one of the other two markers. *)
Lemma parse_final_empty (output before rest : string) :
  partition "|Final Answer:|" output = Some (before, rest) ->
  all_space rest = true \/
  startswith "|Thought:|" rest = true \/ startswith "|Action:|" rest = true ->
  snd (Agent2.parse_output output) = "".
Proof.
  intros Hpart Hrest. unfold Agent2.parse_output. cbv zeta. cbn [snd].
  rewrite (search_partition "|Final Answer:|" Agent2.final_answer_tail output)
    by reflexivity.
  rewrite Hpart. unfold startswith in Hrest.
  destruct Hrest as [Hspace | [Hmarker | Hmarker]].
  - destruct (lazy_group_total Agent2.final_answer_tail rest eq_refl)
      as [g Hg].
    rewrite Hg. cbn [Agent2.group1].
    apply lazy_group_prefix in Hg as (r & -> & _).
    rewrite all_space_app in Hspace. apply andb_true_iff in Hspace as [Hg _].
    now apply strip_all_space.
  - rewrite lazy_group_here; [reflexivity|].
    unfold Agent2.final_answer_tail. now rewrite Hmarker.
  - rewrite lazy_group_here; [reflexivity|].
    unfold Agent2.final_answer_tail. rewrite Hmarker.
    now rewrite orb_true_r.
Qed.

(** The end of the loop body never returns from [run_agent]. *)
Lemma dispatch_next (E : Env) (history : list message) (full_response : string)
  (action : option (string * string)) (s : state E) :
  exists history',
    fst (Agent2.dispatch E history full_response action s) = Next history'.
Proof.
  unfold Agent2.dispatch. destruct action as [[tool_name arg]|].
  - destruct (dict_get tool_name (Agent2.TOOLS E)) as [tool|].
    + rewrite bind_eq. eexists. reflexivity.
    + eexists. reflexivity.
  - eexists. reflexivity.
Qed.

End FallThroughFacts.

(** C10, as the code has it: in [2.agent-streaming.py], a reply whose
    first [|Final Answer:|] marker is followed by whitespace only, or at
    once by a [|Thought:|] or [|Action:|] marker, parses to the empty
    final answer, and the pass does not end the run: it goes on to the
    action branch with the action the parser found, and when there is
    none it appends the reply as an ordinary assistant turn. *)
Theorem empty_final_answer_goes_on (E : Env) (history : list message)
  (s : state E) (before rest : string) :
  let reply := ollama_chat_stream E "llama3.1:8b" history (world s) in
  let full_response := Agent2.accumulate (fst reply) in
  let s' := {| world := snd reply;
               trace := trace s ++ [Chat "llama3.1:8b" history] |} in
  Py.partition "|Final Answer:|" full_response = Some (before, rest) ->
  all_space rest = true \/
  Py.startswith "|Thought:|" rest = true \/
  Py.startswith "|Action:|" rest = true ->
  snd (Agent2.parse_output full_response) = "" /\
  Agent2.iteration E history s =
    Agent2.dispatch E history full_response
      (snd (fst (Agent2.parse_output full_response))) s' /\
  (exists history', fst (Agent2.iteration E history s) = Next history') /\
  (snd (fst (Agent2.parse_output full_response)) = None ->
   Agent2.iteration E history s =
     (Next (history ++ [assistant_msg full_response]), s')).
Proof.
  intros reply full_response s' Hpart Hrest.
  pose proof (FallThroughFacts.parse_final_empty _ _ _ Hpart Hrest) as Hempty.
  assert (Hit : Agent2.iteration E history s =
                Agent2.dispatch E history full_response
                  (snd (fst (Agent2.parse_output full_response))) s').
  { rewrite Agent2Facts.iteration_eq. fold reply. fold full_response.
    now rewrite Hempty. }
  split; [exact Hempty|]. split; [exact Hit|]. split.
  - rewrite Hit. apply FallThroughFacts.dispatch_next.
  - intros Hnone. rewrite Hit, Hnone. reflexivity.
Qed.

Lemma empty_final_answer_goes_on_witness :
  let reply := "|Thought:| still working |Final Answer:|
" in
  let r := Agent2.iteration _ [user_msg "count files"]
             (Constant.start [reply] (Failed "")) in
  snd (Agent2.parse_output reply) = "" /\
  r = (Next [user_msg "count files"; assistant_msg reply],
       snd r).
Proof.
  intros reply r.
  pose proof (empty_final_answer_goes_on _ [user_msg "count files"]
                (Constant.start [reply] (Failed ""))
                "|Thought:| still working " "
" eq_refl (or_introl eq_refl)) as (Hempty & _ & _ & Hplain).
  split; [exact Hempty|].
  exact (Hplain eq_refl).
Defined.

(** C10, as the claim states it, fails: when the reply also holds an
    action, the empty final answer does not make the turn an ordinary
    assistant turn; the action is executed and its observation appended. *)
Lemma empty_final_answer_still_acts :
  let reply := "|Final Answer:||Action:| run_shell_command: ls" in
  let ls := Started {| elapsed := 1; returncode := 0; stdout := "a.txt";
                       stderr := "" |} in
  let r := Agent2.iteration _ [user_msg "list files"]
             (Constant.start [reply] ls) in
  Py.partition "|Final Answer:|" reply
    = Some ("", "|Action:| run_shell_command: ls") /\
  snd (Agent2.parse_output reply) = "" /\
  fst r = Next [user_msg "list files"; assistant_msg reply;
                user_msg "Observation: a.txt"] /\
  fst r <> Next [user_msg "list files"; assistant_msg reply] /\
  shells (trace (snd r)) = ["ls"].
Proof. repeat split. discriminate. Qed.

(** * No action request is left unanswered *)

Module InvariantFacts.
Import Py PyFacts Re ReFacts LoopFacts.

Local Abbreviation answered parse t :=
  (Forall (fun h => no_orphan parse h = true) (chats t)).

Lemma answered_chat {T F : Type}
  (parse : string -> T * option (string * string) * F)
  (t : list event) (model : string) (h : list message) :
  answered parse t -> no_orphan parse h = true ->
  answered parse (t ++ [Chat model h]).
Proof.
  intros Ht Hh. rewrite chats_app. apply Forall_app. split; [exact Ht|].
  cbn [chats]. now constructor.
Qed.

Lemma answered_shell {T F : Type}
  (parse : string -> T * option (string * string) * F)
  (t kills : list event) (command : string) (timeout : option Z) :
  answered parse t -> kills = [] \/ kills = [Kill command] ->
  answered parse (t ++ Shell command timeout :: kills).
Proof.
  intros Ht [-> | ->]; rewrite chats_app; cbn [chats]; now rewrite app_nil_r.
Qed.

(** ** [2.agent-streaming.py] *)

Lemma run_shell_command2_trace (E : Env) (command : string) (s : state E) :
  exists kills,
    trace (snd (Agent2.run_shell_command E command s))
    = (trace s ++ Shell command (Some 30%Z) :: kills)%list /\
    (kills = [] \/ kills = [Kill command]).
Proof.
  unfold Agent2.run_shell_command. rewrite bind_eq.
  destruct (subprocess_run_trace E command (Some 30%Z) s) as (kills & Ht & Hk).
  exists kills. split; [|exact Hk].
  destruct (fst (subprocess_run command (Some 30%Z) s))
    as [rc out err | [c t | d]];
    [destruct (rc =? 0)%Z | | ]; cbn [ret snd]; exact Ht.
Qed.

Lemma tools2_only (E : Env) (tool_name : string)
  (tool : string -> M E string) :
  dict_get tool_name (Agent2.TOOLS E) = Some tool ->
  tool = Agent2.run_shell_command E.
Proof.
  unfold Agent2.TOOLS. cbn [dict_get].
  destruct (tool_name =? "run_shell_command")%string; congruence.
Qed.

Lemma dispatch2_inv (E : Env) (history : list message) (full_response : string)
  (s : state E) :
  no_orphan Agent2.parse_output history = true ->
  answered Agent2.parse_output (trace s) ->
  let r := Agent2.dispatch E history full_response
             (snd (fst (Agent2.parse_output full_response))) s in
  answered Agent2.parse_output (trace (snd r)) /\
  forall history', fst r = Next history' ->
                   no_orphan Agent2.parse_output history' = true.
Proof.
  intros Hh Ht. unfold Agent2.dispatch.
  destruct (snd (fst (Agent2.parse_output full_response)))
    as [[tool_name arg]|] eqn:Haction.
  - destruct (dict_get tool_name (Agent2.TOOLS E)) as [tool|] eqn:Htool.
    + apply tools2_only in Htool as ->. rewrite bind_eq. cbn [ret fst snd].
      destruct (run_shell_command2_trace E arg s) as (kills & -> & Hk). split.
      * now apply answered_shell.
      * intros h' H; injection H as <-. now apply no_orphan_answered.
    + cbn [ret fst snd]. split; [exact Ht|].
      intros h' H; injection H as <-. exact Hh.
  - cbn [ret fst snd]. split; [exact Ht|].
    intros h' H; injection H as <-. now apply no_orphan_plain.
Qed.

Lemma iteration2_inv (E : Env) (history : list message) (s : state E) :
  no_orphan Agent2.parse_output history = true ->
  answered Agent2.parse_output (trace s) ->
  let r := Agent2.iteration E history s in
  answered Agent2.parse_output (trace (snd r)) /\
  forall history', fst r = Next history' ->
                   no_orphan Agent2.parse_output history' = true.
Proof.
  intros Hh Ht. rewrite Agent2Facts.iteration_eq.
  destruct (truthy _).
  - cbn [fst snd trace]. split; [now apply answered_chat|]. discriminate.
  - apply dispatch2_inv; [exact Hh|]. cbn [trace]. now apply answered_chat.
Qed.

Lemma loop2_inv (E : Env) (steps : nat) :
  forall (history : list message) (s : state E),
    no_orphan Agent2.parse_output history = true ->
    answered Agent2.parse_output (trace s) ->
    answered Agent2.parse_output (trace (snd (Agent2.loop E steps history s))).
Proof.
  induction steps as [|steps IH]; intros history s Hh Ht; [exact Ht|].
  cbn [Agent2.loop]. rewrite bind_eq.
  destruct (iteration2_inv E history s Hh Ht) as [Ht' Hh'].
  destruct (fst (Agent2.iteration E history s)) as [answer|history'].
  - exact Ht'.
  - apply IH; [now apply Hh' | exact Ht'].
Qed.

(** ** [6.agent-streaming-styled-final-check-safeguards.py] *)

Lemma run_shell_command6_trace (E : Env) (command : string) (s : state E) :
  exists kills,
    trace (snd (Agent6.run_shell_command E command s))
    = (trace s ++ Shell command (Some 30%Z) :: kills)%list /\
    (kills = [] \/ kills = [Kill command]).
Proof.
  unfold Agent6.run_shell_command. rewrite bind_eq.
  destruct (subprocess_run_trace E command (Some 30%Z) s) as (kills & Ht & Hk).
  exists kills. split; [|exact Hk].
  destruct (fst (subprocess_run command (Some 30%Z) s))
    as [rc out err | [c t | d]];
    [destruct (rc =? 0)%Z | | ]; cbn [ret snd]; exact Ht.
Qed.

Lemma tools6_only (E : Env) (tool_name : string)
  (tool : string -> M E string) :
  dict_get tool_name (Agent6.TOOLS E) = Some tool ->
  tool = Agent6.run_shell_command E.
Proof.
  unfold Agent6.TOOLS. cbn [dict_get].
  destruct (tool_name =? "run_shell_command")%string; congruence.
Qed.

Lemma is_command_safe_trace (E : Env) (command : string) (s : state E) :
  trace (snd (Agent6.is_command_safe E command s))
  = (trace s ++
       [Chat "gemma3:12b" [user_msg (Agent6.safety_prompt command)]])%list.
Proof.
  unfold Agent6.is_command_safe, Agent6.get_llm_response.
  rewrite bind_eq, chat_stream_eq. cbn [fst snd].
  now destruct (startswith _ _).
Qed.

Lemma final_check_trace (E : Env) (query : string) (history : list message)
  (final_answer : string) (s : state E) :
  trace (snd (Agent6.final_check E query history final_answer s))
  = (trace s ++
       [Chat "gemma3:12b"
          [user_msg (Agent6.verification_prompt query history final_answer)]])%list.
Proof.
  unfold Agent6.final_check, Agent6.get_llm_response.
  rewrite bind_eq, chat_stream_eq. cbn [fst snd].
  now destruct (Agent6.better_answer _).
Qed.

Lemma dispatch6_inv (E : Env) (history : list message) (full_response : string)
  (s : state E) :
  no_orphan Agent6.parse_output history = true ->
  answered Agent6.parse_output (trace s) ->
  let r := Agent6.dispatch E history full_response
             (snd (fst (Agent6.parse_output full_response))) s in
  answered Agent6.parse_output (trace (snd r)) /\
  forall history', fst r = Next history' ->
                   no_orphan Agent6.parse_output history' = true.
Proof.
  intros Hh Ht. unfold Agent6.dispatch.
  destruct (snd (fst (Agent6.parse_output full_response)))
    as [[tool_name arg]|] eqn:Haction.
  - destruct (dict_get tool_name (Agent6.TOOLS E)) as [tool|] eqn:Htool.
    + apply tools6_only in Htool as ->. rewrite bind_eq.
      assert (Hgate :
        answered Agent6.parse_output
          (trace (snd ((if (tool_name =? "run_shell_command")%string
                        then Agent6.is_command_safe E arg else ret true) s)))).
      { destruct (tool_name =? "run_shell_command")%string; [|exact Ht].
        rewrite is_command_safe_trace.
        apply answered_chat; [exact Ht | apply no_orphan_user]. }
      destruct (negb _).
      * cbn [ret fst snd]. split; [exact Hgate|].
        intros h' H; injection H as <-. now apply no_orphan_answered.
      * rewrite bind_eq. cbn [ret fst snd].
        match goal with
        | |- context [Agent6.run_shell_command E arg ?s1] =>
            destruct (run_shell_command6_trace E arg s1) as (kills & -> & Hk)
        end.
        split.
        -- now apply answered_shell.
        -- intros h' H; injection H as <-. now apply no_orphan_answered.
    + cbn [ret fst snd]. split; [exact Ht|].
      intros h' H; injection H as <-.
      change ("Observation: Error: Unknown tool: " ++ tool_name)
        with ("Observation: " ++ ("Error: Unknown tool: " ++ tool_name)).
      now apply no_orphan_answered.
  - cbn [ret fst snd]. split; [exact Ht|].
    intros h' H; injection H as <-. now apply no_orphan_plain.
Qed.

Lemma iteration6_inv (E : Env) (query : string) (history : list message)
  (s : state E) :
  no_orphan Agent6.parse_output history = true ->
  answered Agent6.parse_output (trace s) ->
  let r := Agent6.iteration E query history s in
  answered Agent6.parse_output (trace (snd r)) /\
  forall history', fst r = Next history' ->
                   no_orphan Agent6.parse_output history' = true.
Proof.
  intros Hh Ht. unfold Agent6.iteration, Agent6.get_llm_response.
  rewrite bind_eq, chat_stream_eq. cbn [fst snd].
  set (full_response := Agent6.accumulate _).
  set (s' := {| world := _; trace := _ |}).
  assert (Ht' : answered Agent6.parse_output (trace s'))
    by (now apply answered_chat).
  destruct (contains "|Action:|" full_response
            && contains "|Final Answer:|" full_response).
  - cbn [ret fst snd]. split; [exact Ht'|].
    intros h' H; injection H as <-. exact Hh.
  - pose proof (dispatch6_inv E history full_response s' Hh Ht') as Hd.
    destruct (Agent6.parse_output full_response) as [[thought action] final].
    cbn [fst snd] in Hd. destruct (truthy final); [|exact Hd].
    rewrite bind_eq. cbn [ret fst snd]. rewrite final_check_trace.
    split; [|discriminate].
    apply answered_chat; [exact Ht' | apply no_orphan_user].
Qed.

Lemma loop6_inv (E : Env) (query : string) (steps : nat) :
  forall (history : list message) (s : state E),
    no_orphan Agent6.parse_output history = true ->
    answered Agent6.parse_output (trace s) ->
    answered Agent6.parse_output
      (trace (snd (Agent6.loop E query steps history s))).
Proof.
  induction steps as [|steps IH]; intros history s Hh Ht; [exact Ht|].
  cbn [Agent6.loop]. rewrite bind_eq.
  destruct (iteration6_inv E query history s Hh Ht) as [Ht' Hh'].
  destruct (fst (Agent6.iteration E query history s)) as [answer|history'].
  - exact Ht'.
  - apply IH; [now apply Hh' | exact Ht'].
Qed.

End InvariantFacts.

(** ** Every action taken up is reported before the next model call *)

Module ReportFacts.
Import Py PyFacts Re ReFacts LoopFacts InvariantFacts.

Lemma append_cancel_l (p a b : string) : p ++ a = p ++ b -> a = b.
Proof.
  induction p as [|c p IH]; cbn [append]; intros H; [exact H|].
  injection H as H. now apply IH.
Qed.

Lemma length_append (a b : string) :
  String.length (a ++ b) = String.length a + String.length b.
Proof. induction a as [|c a IH]; cbn; [reflexivity | now rewrite IH]. Qed.

Lemma append_cancel_r (a b s : string) : a ++ s = b ++ s -> a = b.
Proof.
  revert b; induction a as [|c a IH]; intros [|d b] H; cbn [append] in H.
  - reflexivity.
  - apply (f_equal String.length) in H. cbn in H.
    rewrite length_append in H. lia.
  - apply (f_equal String.length) in H. cbn in H.
    rewrite length_append in H. lia.
  - injection H as -> H. f_equal. now apply IH.
Qed.

(** The safety question names its command: two questions that read the
    same ask about the same command. *)
Lemma safety_prompt_inj (a b : string) :
  Agent6.safety_prompt a = Agent6.safety_prompt b -> a = b.
Proof.
  unfold Agent6.safety_prompt. intros H.
  apply append_cancel_l in H. now apply append_cancel_r in H.
Qed.

Lemma asks_gate_same (arg command : string) :
  asks_gate [user_msg (Agent6.safety_prompt arg)] command -> command = arg.
Proof.
  unfold asks_gate. intros H.
  assert (H' : Agent6.safety_prompt arg = Agent6.safety_prompt command)
    by exact (f_equal
                (fun l => match l with m :: _ => content m | [] => "" end) H).
  symmetry. now apply safety_prompt_inj.
Qed.

Lemma asks_gate_long (h : list message) (command : string) :
  2 <= List.length h -> ~ asks_gate h command.
Proof. unfold asks_gate. intros Hlen ->. cbn in Hlen. lia. Qed.

Lemma observes_appended {T F : Type}
  (parse : string -> T * option (string * string) * F)
  (h : list message) (full_response tool_name command observation : string) :
  snd (fst (parse full_response)) = Some (tool_name, command) ->
  observes parse command
    (h ++ [assistant_msg full_response;
           user_msg ("Observation: " ++ observation)]).
Proof. intros H. now exists h, full_response, tool_name, observation. Qed.

Lemma reported_kills {T F : Type}
  (parse : string -> T * option (string * string) * F)
  (asks : list message -> string -> Prop) (due : list message -> Prop)
  (kills t : list event) (command : string) :
  kills = [] \/ kills = [Kill command] ->
  reported parse asks due t -> reported parse asks due (kills ++ t).
Proof. now intros [-> | ->]. Qed.

(** *** [2.agent-streaming.py] *)

(** What one pass does after its model call: either nothing to the host,
    the history at most extended; or it runs the command of the parsed
    action and appends the turn with its Observation. *)
Lemma iteration2_cases (E : Env) (history : list message) (s : state E) :
  let r := Agent2.iteration E history s in
  exists extra,
    trace (snd r) = (trace s ++ Chat "llama3.1:8b" history :: extra)%list /\
    ((extra = [] /\
      forall history', fst r = Next history' ->
                       exists t, history' = (history ++ t)%list)
     \/
     exists full_response tool_name arg observation kills,
       extra = Shell arg (Some 30%Z) :: kills /\
       (kills = [] \/ kills = [Kill arg]) /\
       fst r = Next (history ++
                       [assistant_msg full_response;
                        user_msg ("Observation: " ++ observation)]) /\
       snd (fst (Agent2.parse_output full_response)) = Some (tool_name, arg)).
Proof.
  cbn zeta. rewrite Agent2Facts.iteration_eq.
  set (full_response := Agent2.accumulate _).
  set (s' := {| world := _; trace := _ |}).
  destruct (truthy (snd (Agent2.parse_output full_response))).
  { exists []. split; [reflexivity|]. left. split; [reflexivity|].
    discriminate. }
  unfold Agent2.dispatch.
  destruct (snd (fst (Agent2.parse_output full_response)))
    as [[tool_name arg]|] eqn:Haction.
  - destruct (dict_get tool_name (Agent2.TOOLS E)) as [tool|] eqn:Htool.
    + apply tools2_only in Htool as ->. rewrite bind_eq. cbn [ret fst snd].
      destruct (run_shell_command2_trace E arg s') as (kills & -> & Hk).
      exists (Shell arg (Some 30%Z) :: kills). cbn [trace s'].
      rewrite <- app_assoc. split; [reflexivity|]. right.
      now exists full_response, tool_name, arg,
        (fst (Agent2.run_shell_command E arg s')), kills.
    + exists []. split; [reflexivity|]. left. split; [reflexivity|].
      intros h' H; injection H as <-. exists []. now rewrite app_nil_r.
  - exists []. split; [reflexivity|]. left. split; [reflexivity|].
    intros h' H; injection H as <-. eexists. reflexivity.
Qed.

Lemma loop2_reported (E : Env) (steps : nat) :
  forall (history : list message) (s : state E),
  exists added,
    trace (snd (Agent2.loop E steps history s)) = (trace s ++ added)%list /\
    forall due : list message -> Prop,
      due history -> reported Agent2.parse_output asks_nothing due added.
Proof.
  induction steps as [|steps IH]; intros history s.
  { exists []. cbn [Agent2.loop ret snd]. rewrite app_nil_r.
    split; [reflexivity|]. intros due _. exact I. }
  cbn [Agent2.loop]. rewrite bind_eq.
  destruct (iteration2_cases E history s) as (extra & Ht & Hcases).
  destruct (fst (Agent2.iteration E history s)) as [answer|history'] eqn:Hf.
  - exists (Chat "llama3.1:8b" history :: extra). cbn [ret snd].
    split; [exact Ht|]. intros due Hdue.
    destruct Hcases as [[-> _] | (fr & tn & arg & ob & ks & _ & _ & H & _)];
      [|discriminate H].
    cbn [reported]. now split.
  - destruct (IH history' (snd (Agent2.iteration E history s)))
      as (added & Ha & Hrep).
    exists (Chat "llama3.1:8b" history :: extra ++ added).
    split.
    { rewrite Ha, Ht, <- app_assoc. reflexivity. }
    intros due Hdue. cbn [reported]. split; [exact Hdue|].
    destruct Hcases
      as [[-> _] | (fr & tn & arg & ob & ks & -> & Hk & H & Haction)].
    + apply Hrep. intros command [].
    + injection H as ->. cbn [app reported].
      apply reported_kills with (command := arg); [exact Hk|].
      apply Hrep. now apply (observes_appended _ _ _ tn).
Qed.

(** *** [6.agent-streaming-styled-final-check-safeguards.py] *)

Lemma tools6_name (E : Env) (tool_name : string)
  (tool : string -> M E string) :
  dict_get tool_name (Agent6.TOOLS E) = Some tool ->
  tool_name = "run_shell_command" /\ tool = Agent6.run_shell_command E.
Proof.
  unfold Agent6.TOOLS. cbn [dict_get].
  destruct (String.eqb_spec tool_name "run_shell_command");
    [|discriminate].
  intros H; injection H as <-. now split.
Qed.

(** What one pass does after its model call: nothing to the host; the
    final check, ending the run; the gate's question answered by a
    refusal; or the gate's question and then the command.  In the last
    two the turn is appended with its Observation. *)
Lemma iteration6_cases (E : Env) (query : string) (history : list message)
  (s : state E) :
  let r := Agent6.iteration E query history s in
  exists extra,
    trace (snd r) = (trace s ++ Chat "gemma3:12b" history :: extra)%list /\
    ((extra = [] /\
      forall history', fst r = Next history' ->
                       exists t, history' = (history ++ t)%list)
     \/
     (exists h answer, extra = [Chat "gemma3:12b" h] /\ fst r = Return answer)
     \/
     exists full_response arg observation rest,
       extra = Chat "gemma3:12b" [user_msg (Agent6.safety_prompt arg)] :: rest /\
       (rest = [] \/ exists kills,
           rest = Shell arg (Some 30%Z) :: kills /\
           (kills = [] \/ kills = [Kill arg])) /\
       fst r = Next (history ++
                       [assistant_msg full_response;
                        user_msg ("Observation: " ++ observation)]) /\
       snd (fst (Agent6.parse_output full_response))
         = Some ("run_shell_command", arg)).
Proof.
  cbn zeta. unfold Agent6.iteration, Agent6.get_llm_response.
  rewrite bind_eq, chat_stream_eq. cbn [fst snd].
  set (full_response := Agent6.accumulate _).
  set (s' := {| world := _; trace := _ |}).
  destruct (contains "|Action:|" full_response
            && contains "|Final Answer:|" full_response).
  { exists []. split; [reflexivity|]. left. split; [reflexivity|].
    intros h' H; injection H as <-. exists []. now rewrite app_nil_r. }
  destruct (Agent6.parse_output full_response)
    as [[thought action] final] eqn:Hparse.
  assert (Haction : snd (fst (Agent6.parse_output full_response)) = action)
    by now rewrite Hparse.
  destruct (truthy final).
  { rewrite bind_eq. cbn [ret fst snd]. rewrite final_check_trace.
    eexists [_]. cbn [trace s']. rewrite <- app_assoc.
    split; [reflexivity|]. right; left. eexists _, _. split; reflexivity. }
  unfold Agent6.dispatch. destruct action as [[tool_name arg]|].
  2:{ exists []. split; [reflexivity|]. left. split; [reflexivity|].
      intros h' H; injection H as <-. eexists. reflexivity. }
  destruct (dict_get tool_name (Agent6.TOOLS E)) as [tool|] eqn:Htool.
  2:{ exists []. split; [reflexivity|]. left. split; [reflexivity|].
      intros h' H; injection H as <-. eexists. reflexivity. }
  apply tools6_name in Htool as [-> ->]. rewrite bind_eq.
  rewrite String.eqb_refl.
  destruct (negb (fst (Agent6.is_command_safe E arg s'))).
  - cbn [ret fst snd]. rewrite is_command_safe_trace.
    eexists [_]. cbn [trace s']. rewrite <- app_assoc.
    split; [reflexivity|]. right; right.
    eexists full_response, arg, _, []. repeat split; [now left | exact Haction].
  - rewrite bind_eq. cbn [ret fst snd].
    destruct (run_shell_command6_trace E arg
                (snd (Agent6.is_command_safe E arg s')))
      as (kills & -> & Hk).
    rewrite is_command_safe_trace.
    eexists (_ :: _ :: kills). cbn [trace s']. rewrite <- !app_assoc.
    split; [reflexivity|]. right; right.
    eexists full_response, arg, _, _. repeat split; [|exact Haction].
    right. now exists kills.
Qed.

Lemma loop6_reported (E : Env) (query : string) (steps : nat) :
  forall (history : list message) (s : state E),
  2 <= List.length history ->
  exists added,
    trace (snd (Agent6.loop E query steps history s)) = (trace s ++ added)%list /\
    forall due : list message -> Prop,
      due history -> reported Agent6.parse_output asks_gate due added.
Proof.
  induction steps as [|steps IH]; intros history s Hlen.
  { exists []. cbn [Agent6.loop ret snd]. rewrite app_nil_r.
    split; [reflexivity|]. intros due _. exact I. }
  cbn [Agent6.loop]. rewrite bind_eq.
  destruct (iteration6_cases E query history s) as (extra & Ht & Hcases).
  assert (Hfree : forall h' command,
             asks_gate history command ->
             observes Agent6.parse_output command h')
    by (intros h' command H; now apply asks_gate_long in H).
  destruct (fst (Agent6.iteration E query history s))
    as [answer|history'] eqn:Hf.
  - exists (Chat "gemma3:12b" history :: extra). cbn [ret snd].
    split; [exact Ht|]. intros due Hdue.
    destruct Hcases
      as [[-> _] | [(h & a & -> & _) | (fr & arg & ob & rest & _ & _ & H & _)]];
      [| |discriminate H]; cbn [reported]; repeat split; auto.
  - assert (Hlen' : 2 <= List.length history').
    { destruct Hcases
        as [[_ Hext] | [(h & a & _ & H) | (fr & arg & ob & rest & _ & _ & H & _)]].
      - destruct (Hext history' eq_refl) as [t ->]. rewrite length_app. lia.
      - discriminate H.
      - injection H as ->. rewrite length_app. lia. }
    destruct (IH history' (snd (Agent6.iteration E query history s)) Hlen')
      as (added & Ha & Hrep).
    exists (Chat "gemma3:12b" history :: extra ++ added).
    split.
    { rewrite Ha, Ht, <- app_assoc. reflexivity. }
    intros due Hdue. cbn [reported]. split; [exact Hdue|].
    destruct Hcases
      as [[-> _] | [(h & a & _ & H)
                   | (fr & arg & ob & rest & -> & Hrest & H & Haction)]].
    + apply Hrep. apply Hfree.
    + discriminate H.
    + injection H as ->. cbn [app reported].
      split; [apply Hfree|].
      assert (Hobs : observes Agent6.parse_output arg
                       (history ++
                          [assistant_msg fr;
                           user_msg ("Observation: " ++ ob)]))
        by now apply (observes_appended _ _ _ "run_shell_command").
      destruct Hrest as [-> | (kills & -> & Hk)].
      * apply Hrep. intros command Hc.
        apply asks_gate_same in Hc as ->. exact Hobs.
      * cbn [app reported]. apply reported_kills with (command := arg); [exact Hk|].
        now apply Hrep.
Qed.

End ReportFacts.

(** C9: in [2.agent-streaming.py] and in
    [6.agent-streaming-styled-final-check-safeguards.py], every history
    sent to the backend during a run is free of unanswered action
    requests: each assistant turn in which the parser finds an action is
    followed at once by an Observation turn.  And whenever an action is
    taken up, its Observation is there before the next model call: after
    a command was run, and in file 6 after the safety gate was asked
    about a command (whether it then cleared or blocked it), the next
    history sent to the backend ends with the assistant turn that asked
    for that command and, right after it, its Observation turn. *)
Theorem every_action_is_answered (E : Env) (query : string) (max_steps : Z)
  (w : World E) :
  Forall (fun history => no_orphan Agent2.parse_output history = true)
    (chats (trace (snd (Agent2.run_agent E query max_steps (init w)))))
  /\
  Forall (fun history => no_orphan Agent6.parse_output history = true)
    (chats (trace (snd (Agent6.run_agent E query max_steps (init w)))))
  /\
  reported Agent2.parse_output asks_nothing (fun _ => True)
    (trace (snd (Agent2.run_agent E query max_steps (init w))))
  /\
  reported Agent6.parse_output asks_gate (fun _ => True)
    (trace (snd (Agent6.run_agent E query max_steps (init w)))).
Proof.
  split; [|split; [|split]].
  - apply InvariantFacts.loop2_inv; [apply LoopFacts.no_orphan_start|].
    constructor.
  - apply InvariantFacts.loop6_inv; [apply LoopFacts.no_orphan_start|].
    constructor.
  - unfold Agent2.run_agent.
    destruct (ReportFacts.loop2_reported E (Z.to_nat max_steps)
                [system_msg Agent2.SYSTEM_PROMPT; user_msg query] (init w))
      as (added & -> & Hrep).
    now apply Hrep.
  - unfold Agent6.run_agent.
    destruct (ReportFacts.loop6_reported E query (Z.to_nat max_steps)
                [system_msg Agent6.SYSTEM_PROMPT; user_msg query] (init w))
      as (added & -> & Hrep); [cbn; lia|].
    now apply Hrep.
Qed.

(** * Two runs of the safeguarded agent, end to end *)

(** A harmless command is vetted, run, and its output becomes the answer. *)
Example run_pwd :
  let script := {|
    Replay.replies :=
      [["|Thought:| ask the shell "; "|Action:| run_shell_command: pwd"];
       ["NOT POSSIBLE"];
       ["|Final Answer:| /home/user"];
       ["Good answer."]];
    Replay.runs :=
      [Started {| elapsed := 1; returncode := 0; stdout := "/home/user
"; stderr := "" |}] |} in
  let r := Agent6.run_agent _ "Where am I?" 10 (Replay.start script) in
  fst r = "/home/user" /\
  shells (trace (snd r)) = ["pwd"] /\
  List.length (chats (trace (snd r))) = 4%nat.
Proof. repeat split. Qed.

(** A command the gate does not clear is never run; the model is told so. *)
Example run_blocked :
  let script := {|
    Replay.replies :=
      [["|Action:| run_shell_command: rm -rf /"];
       ["POSSIBLE. This deletes everything."];
       ["|Final Answer:| I will not do that."];
       ["Agreed."]];
    Replay.runs := [] |} in
  let r := Agent6.run_agent _ "Free some space" 10 (Replay.start script) in
  fst r = "I will not do that." /\
  shells (trace (snd r)) = [] /\
  option_map (fun h => last h (user_msg "")) (nth_error (chats (trace (snd r))) 2)
  = Some (user_msg "Observation: Error: Command 'rm -rf /' was blocked by the safety guard as potentially harmful. The command was not executed.").
Proof. repeat split. Qed.

(** The invariant of [every_action_is_answered] does tell histories
    apart: an action turn with nothing after it is an orphan, the same
    turn followed by its observation is not. *)
Example no_orphan_tells_apart :
  let turn := assistant_msg "|Action:| run_shell_command: ls" in
  no_orphan Agent2.parse_output [user_msg "list files"; turn] = false /\
  no_orphan Agent2.parse_output
    [user_msg "list files"; turn; user_msg "Observation: a.txt"] = true /\
  no_orphan Agent6.parse_output [user_msg "list files"; turn] = false.
Proof. repeat split. Qed.

(** * Further facts about the text operations *)

Module TextFacts.
Import Py PyFacts Re ReFacts.

Lemma rstrip_rstrip (s : string) : rstrip (rstrip s) = rstrip s.
Proof.
  induction s as [|c s IH]; [reflexivity|].
  cbn [rstrip]. destruct (rstrip s) as [|d r] eqn:Hr.
  - destruct (isspace c) eqn:Hc; [reflexivity|].
    cbn [rstrip]. now rewrite Hc.
  - cbn [rstrip] in *. now rewrite IH.
Qed.

Lemma rstrip_head (c : ascii) (s : string) :
  isspace c = false -> exists r, rstrip (String c s) = String c r.
Proof.
  intros Hc. cbn [rstrip]. destruct (rstrip s) as [|d r].
  - rewrite Hc. now exists "".
  - now exists (String d r).
Qed.

Lemma lstrip_head (s : string) :
  lstrip s = "" \/ exists c r, lstrip s = String c r /\ isspace c = false.
Proof.
  induction s as [|c s IH]; [now left|].
  cbn [lstrip]. destruct (isspace c) eqn:Hc; [exact IH|].
  right. now exists c, s.
Qed.

(** Trimming twice is trimming once. *)
Lemma strip_strip (s : string) : strip (strip s) = strip s.
Proof.
  unfold strip. destruct (lstrip_head s) as [-> | (c & r & -> & Hc)].
  - reflexivity.
  - destruct (rstrip_head c r Hc) as [r' Hr].
    rewrite Hr, (lstrip_nonspace c r' Hc), <- Hr. apply rstrip_rstrip.
Qed.

(** The trimmed text sits inside the text. *)
Lemma strip_inside (s : string) : exists a b, s = a ++ strip s ++ b.
Proof.
  destruct (lstrip_split s) as (a & Ha & _).
  destruct (rstrip_split (lstrip s)) as (b & Hb & _).
  exists a, b. unfold strip. now rewrite <- Hb.
Qed.

Lemma contains_split (m s : string) :
  contains m s = true -> exists a b, s = a ++ m ++ b.
Proof.
  intros H. destruct (partition m s) as [[a b]|] eqn:Hp.
  - exists a, b. now apply partition_split.
  - apply contains_partition in Hp. congruence.
Qed.

Lemma contains_inside (m a s b : string) :
  contains m s = true -> contains m (a ++ s ++ b) = true.
Proof.
  intros H. apply contains_split in H as (s1 & s2 & ->).
  replace (a ++ (s1 ++ m ++ s2) ++ b) with ((a ++ s1) ++ m ++ (s2 ++ b))
    by now rewrite !append_assoc.
  apply contains_app.
Qed.

Lemma contains_strip (m s : string) :
  contains m s = false -> contains m (strip s) = false.
Proof.
  intros H. destruct (contains m (strip s)) eqn:Hc; [|reflexivity].
  destruct (strip_inside s) as (a & b & Hs).
  rewrite Hs, (contains_inside m a _ b Hc) in H. discriminate.
Qed.

Lemma prefix_app_l (p x y : string) :
  prefix p x = true -> prefix p (x ++ y) = true.
Proof.
  intros H. apply prefix_iff in H as [r ->].
  rewrite append_assoc. apply prefix_app.
Qed.

(** The text before the first occurrence of a separator holds none. *)
Lemma partition_before_free (c : ascii) (sep' s before after : string) :
  partition (String c sep') s = Some (before, after) ->
  contains (String c sep') before = false.
Proof.
  revert before; induction s as [|d s IH]; intros before;
    rewrite partition_eq; destruct (prefix _ _) eqn:Hp.
  - intros H; injection H as <- <-. reflexivity.
  - discriminate.
  - intros H; injection H as <- <-. reflexivity.
  - destruct (partition _ s) as [[b a]|] eqn:Hs; [|discriminate].
    intros H; injection H as <- <-.
    rewrite contains_eq, (IH b eq_refl), orb_false_r.
    destruct (prefix (String c sep') (String d b)) eqn:Hb; [|reflexivity].
    apply partition_split in Hs. subst s.
    change (String d (b ++ String c sep' ++ a))
      with (String d b ++ String c sep' ++ a) in Hp.
    now rewrite (prefix_app_l _ _ _ Hb) in Hp.
Qed.

(** What a lazy group holds: no text at which the tail would have
    matched earlier. *)
Lemma lazy_group_free (tail : string -> bool) (c : ascii) (m' s g : string) :
  (forall x, prefix (String c m') x = true -> tail x = true) ->
  lazy_group tail s = Some g ->
  contains (String c m') g = false.
Proof.
  intros Htail. revert g; induction s as [|d s IH]; intros g;
    rewrite lazy_group_eq; destruct (tail _) eqn:Ht.
  - intros H; injection H as <-. reflexivity.
  - discriminate.
  - intros H; injection H as <-. reflexivity.
  - destruct (lazy_group tail s) as [g'|] eqn:Hg; [|discriminate].
    intros H; injection H as <-.
    rewrite contains_eq, (IH g' eq_refl), orb_false_r.
    destruct (prefix (String c m') (String d g')) eqn:Hb; [|reflexivity].
    apply lazy_group_prefix in Hg as (r & -> & _).
    change (String d (g' ++ r)) with (String d g' ++ r) in Ht.
    now rewrite (Htail _ (prefix_app_l _ _ _ Hb)) in Ht.
Qed.

(** A text of whitespace holds no marker. *)
Lemma all_space_free (c : ascii) (m' s : string) :
  isspace c = false -> all_space s = true ->
  contains (String c m') s = false.
Proof.
  intros Hc. induction s as [|d s IH]; intros Hs; [reflexivity|].
  cbn [all_space] in Hs. apply andb_true_iff in Hs as [Hd Hs].
  rewrite contains_eq, (IH Hs), orb_false_r. cbn [prefix].
  destruct (ascii_dec c d) as [->|]; [congruence | reflexivity].
Qed.

End TextFacts.

(** * What the parsers hand to the loops *)

Module ParsedFacts.
Import Py PyFacts Re ReFacts TextFacts.

(** The two halves of [action_str.split(':', 1)], once trimmed. *)
Lemma split_action_clean (action_str t a : string) :
  partition ":" action_str = Some (t, a) ->
  contains ":" (strip t) = false /\
  strip (strip t) = strip t /\ strip (strip a) = strip a.
Proof.
  intros H. repeat split; try apply strip_strip.
  apply contains_strip. now apply partition_before_free in H.
Qed.

Lemma regex_action_clean (action_str tool arg : string) :
  (if truthy action_str
   then match partition ":" action_str with
        | Some (t, a) => Some (strip t, strip a)
        | None => None
        end
   else None) = Some (tool, arg) ->
  contains ":" tool = false /\ strip tool = tool /\ strip arg = arg.
Proof.
  destruct (truthy action_str); [|discriminate].
  destruct (partition ":" action_str) as [[t a]|] eqn:Hp; [|discriminate].
  intros H; injection H as <- <-. now apply split_action_clean in Hp.
Qed.

(** The loop over the lines keeps the action it carries clean. *)
Lemma parse_lines_action_clean (lines : list string) :
  forall thought action tool arg,
    (forall t a, action = Some (t, a) ->
                 contains ":" t = false /\ strip t = t /\ strip a = a) ->
    snd (fst (Agent1.parse_lines lines thought action)) = Some (tool, arg) ->
    contains ":" tool = false /\ strip tool = tool /\ strip arg = arg.
Proof.
  induction lines as [|line rest IH]; intros thought action tool arg Hclean.
  - cbn [Agent1.parse_lines fst snd]. apply Hclean.
  - cbn [Agent1.parse_lines].
    destruct (startswith "Thought:" line); [now apply IH|].
    destruct (startswith "Action:" line).
    + destruct (partition ":" _) as [[t a]|] eqn:Hp; [|now apply IH].
      apply IH. intros t' a' H; injection H as <- <-.
      now apply split_action_clean in Hp.
    + destruct (startswith "Final Answer:" line); [|now apply IH].
      cbn [fst snd]. apply Hclean.
Qed.

Lemma parse_lines_final_none (lines : list string) :
  forall thought action,
    snd (Agent1.parse_lines lines thought action) = None <->
    Forall (fun l => startswith "Final Answer:" l = false) lines.
Proof.
  induction lines as [|line rest IH]; intros thought action.
  - cbn [Agent1.parse_lines snd]. split; [constructor | reflexivity].
  - cbn [Agent1.parse_lines].
    destruct (startswith "Final Answer:" line) eqn:Hf.
    + destruct (ParserFacts.final_answer_line line Hf) as [-> ->].
      cbn [snd]. split; [discriminate|].
      intros H. inversion H; congruence.
    + assert (Hstep : forall t a,
                 snd (Agent1.parse_lines rest t a) = None <->
                 Forall (fun l => startswith "Final Answer:" l = false)
                   (line :: rest)).
      { intros t a. rewrite IH. split.
        - intros H. now constructor.
        - intros H. now inversion H. }
      destruct (startswith "Thought:" line); [apply Hstep|].
      destruct (startswith "Action:" line); [|apply Hstep].
      destruct (partition ":" _) as [[t a]|]; apply Hstep.
Qed.

(** The groups of the regex parsers stop short of their terminators. *)
Lemma group1_free (group1 : option string -> string) (marker : string)
  (tail : string -> bool) (c : ascii) (m' output : string) :
  (forall m, group1 m = match m with Some g => strip g | None => "" end) ->
  (forall x, prefix (String c m') x = true -> tail x = true) ->
  tail "" = true ->
  contains (String c m') (group1 (search marker tail output)) = false.
Proof.
  intros Hgroup Htail Hend. rewrite Hgroup, (search_partition _ _ _ Hend).
  destruct (partition marker output) as [[before after]|]; [|reflexivity].
  destruct (lazy_group tail after) as [g|] eqn:Hg; [|reflexivity].
  apply contains_strip. now apply (lazy_group_free tail c m' after g).
Qed.

Lemma group1_trimmed (group1 : option string -> string) (m : option string) :
  (forall m, group1 m = match m with Some g => strip g | None => "" end) ->
  strip (group1 m) = group1 m.
Proof.
  intros Hgroup. rewrite Hgroup. destruct m; [apply strip_strip | reflexivity].
Qed.

(** The tails of file 6 accept a text that opens with one of their
    markers. *)
Lemma guarded_tail_marker (k : string -> bool) (x : string) :
  k x = true -> opt_bar_then (spaces_then k) x = true.
Proof.
  intros Hk.
  assert (Hs : spaces_then k x = true) by (destruct x; cbn; now rewrite Hk).
  unfold opt_bar_then. destruct x as [|c x]; [exact Hs|].
  destruct c as [[] [] [] [] [] [] [] []]; try exact Hs.
  rewrite Hs. apply orb_true_r.
Qed.

End ParsedFacts.

(** X1: whichever parser produced it, a parsed action has a tool name
    that is trimmed and holds no colon, and a trimmed argument. *)
Theorem parsed_action_is_clean (output tool arg : string) :
  snd (fst (Agent1.parse_output output)) = Some (tool, arg) \/
  snd (fst (Agent2.parse_output output)) = Some (tool, arg) \/
  snd (fst (Agent4.parse_output output)) = Some (tool, arg) \/
  snd (fst (Agent6.parse_output output)) = Some (tool, arg) ->
  Py.contains ":" tool = false /\ Py.strip tool = tool /\ Py.strip arg = arg.
Proof.
  intros [H | [H | [H | H]]].
  - unfold Agent1.parse_output in H.
    eapply ParsedFacts.parse_lines_action_clean; [|exact H]. discriminate.
  - now apply ParsedFacts.regex_action_clean in H.
  - now apply ParsedFacts.regex_action_clean in H.
  - now apply ParsedFacts.regex_action_clean in H.
Qed.

Lemma parsed_action_is_clean_witness :
  Py.contains ":" "run_shell_command" = false /\
  Py.strip "run_shell_command" = "run_shell_command" /\
  Py.strip "date -d 12:30" = "date -d 12:30".
Proof.
  exact (parsed_action_is_clean
           "|Action:|  run_shell_command : date -d 12:30 "
           "run_shell_command" "date -d 12:30" (or_intror (or_introl eq_refl))).
Defined.

(** X2: the final answer and the thought read by the regex parsers are
    trimmed and stop short of the markers that end their group: those of
    files 2 and 4 hold no [|Thought:|], [|Action:|] (final answer) or
    [|Action:|], [|Final Answer:|] (thought); those of file 6 hold not
    even the markers without their closing bar. *)
Theorem regex_sections_are_bounded (output : string) :
  (let final_answer := snd (Agent2.parse_output output) in
   let thought := fst (fst (Agent2.parse_output output)) in
   Py.contains "|Thought:|" final_answer = false /\
   Py.contains "|Action:|" final_answer = false /\
   Py.strip final_answer = final_answer /\
   Py.contains "|Action:|" thought = false /\
   Py.contains "|Final Answer:|" thought = false /\
   Py.strip thought = thought)
  /\
  (let final_answer := snd (Agent4.parse_output output) in
   Py.contains "|Thought:|" final_answer = false /\
   Py.contains "|Action:|" final_answer = false /\
   Py.strip final_answer = final_answer)
  /\
  (let final_answer := snd (Agent6.parse_output output) in
   let thought := fst (fst (Agent6.parse_output output)) in
   Py.contains "|Thought:" final_answer = false /\
   Py.contains "|Action:" final_answer = false /\
   Py.strip final_answer = final_answer /\
   Py.contains "|Action:" thought = false /\
   Py.contains "|Final Answer:" thought = false /\
   Py.strip thought = thought).
Proof.
  assert (H2 : forall m, Agent2.group1 m =
                 match m with Some g => Py.strip g | None => "" end)
    by reflexivity.
  assert (H4 : forall m, Agent4.group1 m =
                 match m with Some g => Py.strip g | None => "" end)
    by reflexivity.
  assert (H6 : forall m, Agent6.group1 m =
                 match m with Some g => Py.strip g | None => "" end)
    by reflexivity.
  unfold Agent2.parse_output, Agent4.parse_output, Agent6.parse_output.
  cbv zeta. cbn [fst snd].
  repeat split;
    try (apply ParsedFacts.group1_trimmed; assumption);
    try (apply ParsedFacts.group1_free;
         [ assumption
         | intros x Hx;
           first
             [ unfold Agent2.final_answer_tail, Agent2.thought_tail,
                 Agent4.final_answer_tail;
               rewrite Hx; cbn [orb]; rewrite ?orb_true_r; reflexivity
             | apply ParsedFacts.guarded_tail_marker;
               rewrite Hx; cbn [orb]; rewrite ?orb_true_r; reflexivity ]
         | reflexivity ]).
Qed.

(** X3: the line parser of file 1 reports no final answer exactly when
    no line of the trimmed text opens with [Final Answer:]. *)
Theorem line_parser_final_none (output : string) :
  snd (Agent1.parse_output output) = None <->
  Forall (fun line => Py.startswith "Final Answer:" line = false)
    (Py.split Py.newline (Py.strip output)).
Proof. apply ParsedFacts.parse_lines_final_none. Qed.

(** X4: a reply of whitespace only (the empty reply too) parses to
    nothing in every variant: no thought, no action, no final answer. *)
Theorem blank_reply_parses_to_nothing (output : string) :
  all_space output = true ->
  Agent1.parse_output output = ("", None, None) /\
  Agent2.parse_output output = ("", None, "") /\
  Agent4.parse_output output = ("", None, "") /\
  Agent6.parse_output output = ("", None, "").
Proof.
  intros Hblank.
  assert (Hfree : forall m', Py.contains (String "|" m') output = false)
    by (intros m'; now apply TextFacts.all_space_free).
  split; [|split; [|split]].
  - unfold Agent1.parse_output.
    now rewrite (PyFacts.strip_all_space output Hblank).
  - unfold Agent2.parse_output.
    now rewrite !ReFacts.search_absent by apply Hfree.
  - unfold Agent4.parse_output.
    now rewrite !ReFacts.search_absent by apply Hfree.
  - unfold Agent6.parse_output.
    now rewrite !ReFacts.search_absent by apply Hfree.
Qed.

Lemma blank_reply_parses_to_nothing_witness :
  Agent1.parse_output "
 " = ("", None, None) /\
  Agent2.parse_output "
 " = ("", None, "") /\
  Agent4.parse_output "
 " = ("", None, "") /\
  Agent6.parse_output "
 " = ("", None, "").
Proof.
  exact (blank_reply_parses_to_nothing "
 " eq_refl).
Defined.

(** * What a run does to the host, whatever the backend answers *)

Module RunFacts.
Import Py PyFacts Re ReFacts LoopFacts.

Lemma chat_eq (E : Env) (model : string) (h : list message) (s : state E) :
  chat model h s =
  (fst (ollama_chat E model h (world s)),
   {| world := snd (ollama_chat E model h (world s));
      trace := trace s ++ [Chat model h] |}).
Proof. unfold chat. now destruct (ollama_chat E model h (world s)). Qed.

Lemma run_shell_command1_trace (E : Env) (command : string) (s : state E) :
  trace (snd (Agent1.run_shell_command E command s))
  = (trace s ++ [Shell command None])%list.
Proof.
  unfold Agent1.run_shell_command. rewrite bind_eq.
  destruct (fst (subprocess_run command None s)) as [rc out err | e];
    [destruct (rc =? 0)%Z | ]; cbn [ret snd]; apply subprocess_run_trace_none.
Qed.

Lemma tools1_only (E : Env) (tool_name : string)
  (tool : string -> M E string) :
  dict_get tool_name (Agent1.TOOLS E) = Some tool ->
  tool = Agent1.run_shell_command E.
Proof.
  unfold Agent1.TOOLS. cbn [dict_get].
  destruct (tool_name =? "run_shell_command")%string; congruence.
Qed.

(** One pass of the loop of file 1: one model call, then at most one
    command; the pass ends the run with a non-empty answer or goes on
    with a history that extends the one it had. *)
Lemma dispatch1_shape (E : Env) (history : list message) (output : string)
  (action : option (string * string)) (s : state E) :
  let r := Agent1.dispatch E history output action s in
  (trace (snd r) = trace s \/
   exists c, trace (snd r) = (trace s ++ [Shell c None])%list) /\
  exists history' t, fst r = Next history' /\ history' = (history ++ t)%list.
Proof.
  unfold Agent1.dispatch. destruct action as [[tool_name arg]|].
  - destruct (dict_get tool_name (Agent1.TOOLS E)) as [tool|] eqn:Htool.
    + apply tools1_only in Htool as ->. rewrite bind_eq. cbn [ret fst snd].
      rewrite run_shell_command1_trace. split; [right; now exists arg|].
      eexists _, _. split; reflexivity.
    + cbn [ret fst snd]. split; [now left|].
      exists history, []. split; [reflexivity | now rewrite app_nil_r].
  - cbn [ret fst snd]. split; [now left|].
    eexists _, _. split; reflexivity.
Qed.

Lemma iteration1_shape (E : Env) (history : list message) (s : state E) :
  let r := Agent1.iteration E history s in
  exists extra,
    trace (snd r) = (trace s ++ Chat "llama3.1:8b" history :: extra)%list /\
    chats extra = [] /\ List.length (shells extra) <= 1 /\
    match fst r with
    | Return answer => answer <> ""
    | Next history' => exists t, history' = (history ++ t)%list
    end.
Proof.
  unfold Agent1.iteration, Agent1.get_llm_response.
  rewrite bind_eq, chat_eq. cbn [fst snd].
  set (output := fst _). set (s' := {| world := _; trace := _ |}).
  assert (Hd : forall action,
    let r := Agent1.dispatch E history output action s' in
    exists extra,
      trace (snd r) = (trace s ++ Chat "llama3.1:8b" history :: extra)%list /\
      chats extra = [] /\ List.length (shells extra) <= 1 /\
      match fst r with
      | Return answer => answer <> ""
      | Next history' => exists t, history' = (history ++ t)%list
      end).
  { intros action.
    destruct (dispatch1_shape E history output action s')
      as ([Ht | [c Ht]] & h' & t & Hf & ->); cbn zeta; rewrite Ht, Hf.
    - exists []. cbn. repeat split; [lia | now exists t].
    - exists [Shell c None]. cbn [trace s']. rewrite <- app_assoc.
      cbn. repeat split; [lia | now exists t]. }
  destruct (Agent1.parse_output output) as [[thought action] [answer|]];
    [|apply Hd].
  destruct (truthy answer) eqn:Ha; [|apply Hd].
  exists []. cbn. repeat split; [lia|].
  intros ->. discriminate.
Qed.

(** The same for the loop of file 2. *)
Lemma iteration2_shape (E : Env) (history : list message) (s : state E) :
  let r := Agent2.iteration E history s in
  exists extra,
    trace (snd r) = (trace s ++ Chat "llama3.1:8b" history :: extra)%list /\
    chats extra = [] /\ List.length (shells extra) <= 1 /\
    match fst r with
    | Return answer => answer <> ""
    | Next history' => exists t, history' = (history ++ t)%list
    end.
Proof.
  cbn zeta. rewrite Agent2Facts.iteration_eq.
  set (full_response := Agent2.accumulate _).
  set (s' := {| world := _; trace := _ |}).
  destruct (truthy (snd (Agent2.parse_output full_response))) eqn:Ha.
  - assert (Hne : snd (Agent2.parse_output full_response) <> "")
      by (intros Hempty; rewrite Hempty in Ha; discriminate).
    exists []. cbn [fst snd trace s' chats shells List.length].
    repeat split; [lia | exact Hne].
  - unfold Agent2.dispatch.
    destruct (snd (fst (Agent2.parse_output full_response)))
      as [[tool_name arg]|].
    + destruct (dict_get tool_name (Agent2.TOOLS E)) as [tool|] eqn:Htool.
      * apply InvariantFacts.tools2_only in Htool as ->.
        rewrite bind_eq. cbn [ret fst snd].
        destruct (InvariantFacts.run_shell_command2_trace E arg s')
          as (kills & -> & Hk).
        exists (Shell arg (Some 30%Z) :: kills). cbn [trace s'].
        rewrite <- app_assoc.
        destruct Hk as [-> | ->]; cbn;
          repeat split; try lia; eexists; reflexivity.
      * exists []. cbn. repeat split; [lia|].
        exists []. now rewrite app_nil_r.
    + exists []. cbn. repeat split; [lia | eexists; reflexivity].
Qed.

(** What a whole loop adds to the trace, given what one pass adds. *)
Section Loops.
Context (E : Env) (model : string).
Context (iteration : list message -> M E (flow string)).
Context (loop : nat -> list message -> M E string).
Hypothesis loop_O :
  forall history, loop O history = ret "Max steps reached without final answer.".
Hypothesis loop_S :
  forall steps history,
    loop (S steps) history =
    (f <- iteration history ;;
     match f with
     | Return answer => ret answer
     | Next history' => loop steps history'
     end).
Hypothesis iteration_shape :
  forall history s,
    exists extra,
      trace (snd (iteration history s))
      = (trace s ++ Chat model history :: extra)%list /\
      chats extra = [] /\ List.length (shells extra) <= 1 /\
      match fst (iteration history s) with
      | Return answer => answer <> ""
      | Next history' => exists t, history' = (history ++ t)%list
      end.

Lemma loop_shape (steps : nat) :
  forall history s,
    let r := loop steps history s in
    exists hs,
      chats (trace (snd r)) = (chats (trace s) ++ hs)%list /\
      List.length hs <= steps /\
      List.length (shells (trace (snd r)))
        <= List.length (shells (trace s)) + List.length hs /\
      match hs with [] => True | h0 :: _ => h0 = history end /\
      growing hs /\
      fst r <> "".
Proof.
  induction steps as [|steps IH]; intros history s; cbn zeta.
  - rewrite loop_O. exists []. cbn. rewrite app_nil_r.
    repeat split; [lia | lia | discriminate].
  - rewrite loop_S, bind_eq.
    destruct (iteration_shape history s) as (extra & Ht & Hc & Hs & Hf).
    assert (Hchats : chats (trace (snd (iteration history s)))
                     = (chats (trace s) ++ [history])%list).
    { rewrite Ht, chats_app. cbn [chats]. now rewrite Hc. }
    assert (Hshells : List.length (shells (trace (snd (iteration history s))))
                      <= List.length (shells (trace s)) + 1).
    { rewrite Ht, shells_app, length_app. cbn [shells]. lia. }
    destruct (fst (iteration history s)) as [answer|history'].
    + exists [history]. cbn [ret fst snd List.length growing].
      repeat split; [exact Hchats | lia | lia | exact Hf].
    + destruct (IH history' (snd (iteration history s)))
        as (hs & Hc' & Hl' & Hs' & Hh' & Hg' & Hr').
      exists (history :: hs). cbn [List.length growing].
      split; [rewrite Hc', Hchats, <- app_assoc; reflexivity|].
      split; [lia|]. split; [lia|]. split; [reflexivity|].
      split; [|exact Hr'].
      split; [|exact Hg'].
      destruct hs as [|h0 hs]; [exact I|]. subst h0. exact Hf.
Qed.

End Loops.

Lemma loop1_shape (E : Env) (steps : nat) (history : list message)
  (s : state E) :
  let r := Agent1.loop E steps history s in
  exists hs,
    chats (trace (snd r)) = (chats (trace s) ++ hs)%list /\
    List.length hs <= steps /\
    List.length (shells (trace (snd r)))
      <= List.length (shells (trace s)) + List.length hs /\
    match hs with [] => True | h0 :: _ => h0 = history end /\
    growing hs /\
    fst r <> "".
Proof.
  apply (loop_shape E "llama3.1:8b" (Agent1.iteration E) (Agent1.loop E));
    [reflexivity | reflexivity | apply iteration1_shape].
Qed.

Lemma loop2_shape (E : Env) (steps : nat) (history : list message)
  (s : state E) :
  let r := Agent2.loop E steps history s in
  exists hs,
    chats (trace (snd r)) = (chats (trace s) ++ hs)%list /\
    List.length hs <= steps /\
    List.length (shells (trace (snd r)))
      <= List.length (shells (trace s)) + List.length hs /\
    match hs with [] => True | h0 :: _ => h0 = history end /\
    growing hs /\
    fst r <> "".
Proof.
  apply (loop_shape E "llama3.1:8b" (Agent2.iteration E) (Agent2.loop E));
    [reflexivity | reflexivity | apply iteration2_shape].
Qed.

End RunFacts.

(** X5: whatever the backend answers and the commands do, a run of
    [run_agent] of file 1 or of file 2 makes at most [max_steps] model
    calls and runs at most one command per model call. *)
Theorem run_agent_stays_within_budget (E : Env) (query : string)
  (max_steps : Z) (w : World E) :
  (let t := trace (snd (Agent1.run_agent E query max_steps (init w))) in
   List.length (chats t) <= Z.to_nat max_steps /\
   List.length (shells t) <= List.length (chats t))
  /\
  (let t := trace (snd (Agent2.run_agent E query max_steps (init w))) in
   List.length (chats t) <= Z.to_nat max_steps /\
   List.length (shells t) <= List.length (chats t)).
Proof.
  split; cbn zeta.
  - unfold Agent1.run_agent.
    destruct (RunFacts.loop1_shape E (Z.to_nat max_steps)
                [system_msg Agent1.SYSTEM_PROMPT; user_msg query] (init w))
      as (hs & Hc & Hl & Hs & _ & _ & _).
    cbn [init trace chats shells List.length app] in Hc, Hs.
    rewrite Hc. split; [exact Hl | exact Hs].
  - unfold Agent2.run_agent.
    destruct (RunFacts.loop2_shape E (Z.to_nat max_steps)
                [system_msg Agent2.SYSTEM_PROMPT; user_msg query] (init w))
      as (hs & Hc & Hl & Hs & _ & _ & _).
    cbn [init trace chats shells List.length app] in Hc, Hs.
    rewrite Hc. split; [exact Hl | exact Hs].
Qed.

(** X6: in a run of file 1 or of file 2 the conversation only grows: the
    first history sent to the backend is the system prompt followed by
    the query, and every later one extends the one sent before it. *)
Theorem histories_only_grow (E : Env) (query : string) (max_steps : Z)
  (w : World E) :
  (let hs := chats (trace (snd (Agent1.run_agent E query max_steps (init w)))) in
   match hs with
   | [] => True
   | h0 :: _ => h0 = [system_msg Agent1.SYSTEM_PROMPT; user_msg query]
   end /\ growing hs)
  /\
  (let hs := chats (trace (snd (Agent2.run_agent E query max_steps (init w)))) in
   match hs with
   | [] => True
   | h0 :: _ => h0 = [system_msg Agent2.SYSTEM_PROMPT; user_msg query]
   end /\ growing hs).
Proof.
  split; cbn zeta.
  - unfold Agent1.run_agent.
    destruct (RunFacts.loop1_shape E (Z.to_nat max_steps)
                [system_msg Agent1.SYSTEM_PROMPT; user_msg query] (init w))
      as (hs & Hc & _ & _ & Hh & Hg & _).
    cbn [init trace chats app] in Hc. rewrite Hc. split; assumption.
  - unfold Agent2.run_agent.
    destruct (RunFacts.loop2_shape E (Z.to_nat max_steps)
                [system_msg Agent2.SYSTEM_PROMPT; user_msg query] (init w))
      as (hs & Hc & _ & _ & Hh & Hg & _).
    cbn [init trace chats app] in Hc. rewrite Hc. split; assumption.
Qed.

(** X7: [run_agent] of file 1 and of file 2 never returns the empty
    string: an empty final answer is not taken for an answer, and the
    exhaustion message is not empty. *)
Theorem run_agent_answer_not_empty (E : Env) (query : string) (max_steps : Z)
  (w : World E) :
  fst (Agent1.run_agent E query max_steps (init w)) <> "" /\
  fst (Agent2.run_agent E query max_steps (init w)) <> "".
Proof.
  split.
  - unfold Agent1.run_agent.
    destruct (RunFacts.loop1_shape E (Z.to_nat max_steps)
                [system_msg Agent1.SYSTEM_PROMPT; user_msg query] (init w))
      as (hs & _ & _ & _ & _ & _ & Hr).
    exact Hr.
  - unfold Agent2.run_agent.
    destruct (RunFacts.loop2_shape E (Z.to_nat max_steps)
                [system_msg Agent2.SYSTEM_PROMPT; user_msg query] (init w))
      as (hs & _ & _ & _ & _ & _ & Hr).
    exact Hr.
Qed.

(** * The safeguarded loop of file 6, whatever the backend answers *)

Module GuardedRunFacts.
Import Py PyFacts Re ReFacts LoopFacts InvariantFacts ReportFacts.

Lemma parse6_action_absent (output : string) :
  contains "|Action:|" output = false ->
  snd (fst (Agent6.parse_output output)) = None.
Proof.
  intros H. unfold Agent6.parse_output. cbv zeta. cbn [fst snd].
  now rewrite search_absent.
Qed.

Lemma gated_chat (t : list event) (model : string) (h : list message) :
  gated t -> gated (t ++ [Chat model h]).
Proof. unfold gated. rewrite rev_app_distr. cbn. auto. Qed.

Lemma gated_command (t kills : list event) (command : string) :
  gated t -> kills = [] \/ kills = [Kill command] ->
  gated (t ++ Chat "gemma3:12b" [user_msg (Agent6.safety_prompt command)]
              :: Shell command (Some 30%Z) :: kills).
Proof.
  unfold gated. intros H [-> | ->]; rewrite rev_app_distr; cbn;
    (split; [reflexivity|]; split; [|exact H]; eexists; reflexivity).
Qed.

(** What one pass adds to the trace after its model call: nothing, one
    more model call (the gate's refusal, or the final check), or the
    gate's question followed by the command it cleared. *)
Lemma iteration6_shape (E : Env) (query : string) (history : list message)
  (s : state E) :
  let r := Agent6.iteration E query history s in
  exists extra,
    trace (snd r) = (trace s ++ Chat "gemma3:12b" history :: extra)%list /\
    (extra = [] \/
     (exists h, extra = [Chat "gemma3:12b" h]) \/
     (exists c kills,
         extra = Chat "gemma3:12b" [user_msg (Agent6.safety_prompt c)]
                 :: Shell c (Some 30%Z) :: kills /\
         (kills = [] \/ kills = [Kill c]))).
Proof.
  cbn zeta. unfold Agent6.iteration, Agent6.get_llm_response.
  rewrite bind_eq, chat_stream_eq. cbn [fst snd].
  set (full_response := Agent6.accumulate _).
  set (s' := {| world := _; trace := _ |}).
  destruct (contains "|Action:|" full_response
            && contains "|Final Answer:|" full_response).
  { exists []. split; [reflexivity | now left]. }
  destruct (Agent6.parse_output full_response) as [[thought action] final].
  destruct (truthy final).
  { rewrite bind_eq. cbn [ret fst snd]. rewrite final_check_trace.
    eexists [_]. cbn [trace s']. rewrite <- app_assoc.
    split; [reflexivity|]. right; left. eexists. reflexivity. }
  unfold Agent6.dispatch. destruct action as [[tool_name arg]|];
    [|exists []; split; [reflexivity | now left]].
  destruct (dict_get tool_name (Agent6.TOOLS E)) as [tool|] eqn:Htool;
    [|exists []; split; [reflexivity | now left]].
  apply tools6_name in Htool as [-> ->]. rewrite bind_eq.
  rewrite String.eqb_refl.
  destruct (negb (fst (Agent6.is_command_safe E arg s'))).
  - cbn [ret fst snd]. rewrite is_command_safe_trace.
    eexists [_]. cbn [trace s']. rewrite <- app_assoc.
    split; [reflexivity|]. right; left. eexists. reflexivity.
  - rewrite bind_eq. cbn [ret fst snd].
    destruct (run_shell_command6_trace E arg
                (snd (Agent6.is_command_safe E arg s')))
      as (kills & -> & Hk).
    rewrite is_command_safe_trace.
    eexists (_ :: _ :: kills). cbn [trace s']. rewrite <- !app_assoc.
    split; [reflexivity|]. right; right. now exists arg, kills.
Qed.

End GuardedRunFacts.

Module GuardedLoopFacts.
Import Py PyFacts Re ReFacts LoopFacts InvariantFacts GuardedRunFacts.

Lemma loop6_shape (E : Env) (query : string) (steps : nat) :
  forall (history : list message) (s : state E),
    gated (trace s) ->
    let t := trace (snd (Agent6.loop E query steps history s)) in
    gated t /\
    List.length (chats t) <= List.length (chats (trace s)) + 2 * steps /\
    List.length (shells t) <= List.length (shells (trace s)) + steps.
Proof.
  induction steps as [|steps IH]; intros history s Hg; cbn zeta.
  - cbn [Agent6.loop ret snd]. repeat split; [exact Hg | lia | lia].
  - cbn [Agent6.loop]. rewrite bind_eq.
    destruct (iteration6_shape E query history s) as (extra & Ht & Hextra).
    set (s1 := snd (Agent6.iteration E query history s)) in *.
    assert (H1 : gated (trace s1) /\
                 List.length (chats (trace s1))
                   <= List.length (chats (trace s)) + 2 /\
                 List.length (shells (trace s1))
                   <= List.length (shells (trace s)) + 1).
    { rewrite Ht.
      change (Chat "gemma3:12b" history :: extra)
        with ([Chat "gemma3:12b" history] ++ extra)%list.
      rewrite app_assoc, !chats_app, !shells_app, !length_app.
      pose proof (gated_chat (trace s) "gemma3:12b" history Hg) as Hg1.
      destruct Hextra as [-> | [[h ->] | (c & kills & -> & Hk)]].
      - rewrite app_nil_r. cbn. repeat split; [exact Hg1 | lia | lia].
      - cbn. repeat split; [now apply gated_chat | lia | lia].
      - split; [now apply gated_command|].
        destruct Hk as [-> | ->]; cbn; split; lia. }
    destruct H1 as (Hg1 & Hc1 & Hs1).
    destruct (fst (Agent6.iteration E query history s)) as [answer|history'].
    + cbn [ret snd]. repeat split; [exact Hg1 | lia | lia].
    + destruct (IH history' s1 Hg1) as (Hg' & Hc' & Hs').
      repeat split; [exact Hg' | lia | lia].
Qed.

End GuardedLoopFacts.

(** X8: whatever the backend answers, a run of [run_agent] of file 6
    makes at most two model calls per step of the budget (the turn
    itself, then the safety gate or the final check) and runs at most one
    command per step. *)
Theorem guarded_run_stays_within_budget (E : Env) (query : string)
  (max_steps : Z) (w : World E) :
  let t := trace (snd (Agent6.run_agent E query max_steps (init w))) in
  List.length (chats t) <= 2 * Z.to_nat max_steps /\
  List.length (shells t) <= Z.to_nat max_steps.
Proof.
  cbn zeta. unfold Agent6.run_agent.
  destruct (GuardedLoopFacts.loop6_shape E query (Z.to_nat max_steps)
              [system_msg Agent6.SYSTEM_PROMPT; user_msg query] (init w) I)
    as (_ & Hc & Hs).
  cbn [init trace chats shells List.length] in Hc, Hs. split; lia.
Qed.

(** X9: in a run of file 6 no command reaches the shell unvetted: every
    command is run under the 30-unit ceiling, and the event just before
    it is the safety gate's question about that very command. *)
Theorem every_command_is_gated (E : Env) (query : string) (max_steps : Z)
  (w : World E) :
  gated (trace (snd (Agent6.run_agent E query max_steps (init w)))).
Proof.
  unfold Agent6.run_agent.
  now destruct (GuardedLoopFacts.loop6_shape E query (Z.to_nat max_steps)
                  [system_msg Agent6.SYSTEM_PROMPT; user_msg query] (init w) I).
Qed.

(** X10: in file 6, a turn that asks for [run_shell_command] is settled
    by the gate's verdict.  On an unsafe verdict nothing is run and the
    observation tells the model that the command was blocked; on a safe
    verdict the command is run, once, and what [run_shell_command]
    returns becomes the observation. *)
Theorem gate_verdict_decides (E : Env) (query : string)
  (history : list message) (s : state E) (arg : string) :
  let reply := ollama_chat_stream E "gemma3:12b" history (world s) in
  let full_response := Agent6.accumulate (fst reply) in
  let s1 := {| world := snd reply;
               trace := trace s ++ [Chat "gemma3:12b" history] |} in
  let verdict := Agent6.is_command_safe E arg s1 in
  let r := Agent6.iteration E query history s in
  Py.contains "|Final Answer:|" full_response = false ->
  snd (fst (Agent6.parse_output full_response))
    = Some ("run_shell_command", arg) ->
  (fst verdict = false ->
   fst r = Next (history ++
                   [assistant_msg full_response;
                    user_msg ("Observation: Error: Command '" ++ arg ++
                              "' was blocked by the safety guard as potentially harmful. The command was not executed.")])
   /\ shells (trace (snd r)) = shells (trace s))
  /\
  (fst verdict = true ->
   fst r = Next (history ++
                   [assistant_msg full_response;
                    user_msg ("Observation: " ++
                              fst (Agent6.run_shell_command E arg (snd verdict)))])
   /\ shells (trace (snd r)) = (shells (trace s) ++ [arg])%list).
Proof.
  intros reply full_response s1 verdict r Hfinal Haction.
  assert (Hr : r =
    (safe <- Agent6.is_command_safe E arg ;;
     if negb safe
     then ret (Next (history ++
                 [assistant_msg full_response;
                  user_msg ("Observation: " ++
                            ("Error: Command '" ++ arg ++
                             "' was blocked by the safety guard as potentially harmful. The command was not executed."))]))
     else observation <- Agent6.run_shell_command E arg ;;
          ret (Next (history ++
                 [assistant_msg full_response;
                  user_msg ("Observation: " ++ observation)]))) s1).
  { subst r. unfold Agent6.iteration, Agent6.get_llm_response.
    rewrite LoopFacts.bind_eq, LoopFacts.chat_stream_eq. cbn [fst snd].
    fold reply. fold full_response. fold s1.
    rewrite Hfinal, andb_false_r.
    pose proof (Agent6Facts.parse6_final_absent full_response Hfinal) as Hempty.
    destruct (Agent6.parse_output full_response) as [[thought action] final].
    cbn [fst snd] in *. subst final action. cbn [Py.truthy].
    unfold Agent6.dispatch, Agent6.TOOLS. cbn [dict_get].
    rewrite String.eqb_refl. reflexivity. }
  assert (Hs1 : shells (trace s1) = shells (trace s)).
  { subst s1. cbn [trace]. rewrite LoopFacts.shells_app. cbn [shells].
    apply app_nil_r. }
  rewrite Hr, LoopFacts.bind_eq. fold verdict. split; intros Hv; rewrite Hv.
  - cbn [negb ret fst snd]. split; [reflexivity|].
    subst verdict. rewrite InvariantFacts.is_command_safe_trace.
    rewrite LoopFacts.shells_app. cbn [shells]. now rewrite app_nil_r.
  - cbn [negb]. rewrite LoopFacts.bind_eq. cbn [ret fst snd].
    split; [reflexivity|].
    destruct (InvariantFacts.run_shell_command6_trace E arg (snd verdict))
      as (kills & -> & Hk).
    subst verdict. rewrite InvariantFacts.is_command_safe_trace.
    rewrite !LoopFacts.shells_app.
    destruct Hk as [-> | ->]; cbn [shells]; now rewrite app_nil_r, Hs1.
Qed.

Lemma gate_verdict_decides_witness :
  let blocked := {|
    Replay.replies := [["|Action:| run_shell_command: rm -rf /"]; ["POSSIBLE"]];
    Replay.runs := [] |} in
  let cleared := {|
    Replay.replies := [["|Action:| run_shell_command: pwd"]; ["NOT POSSIBLE"]];
    Replay.runs :=
      [Started {| elapsed := 1; returncode := 0; stdout := "/home/user";
                  stderr := "" |}] |} in
  shells (trace (snd (Agent6.iteration _ "q" [user_msg "q"]
                        (Replay.start blocked)))) = [] /\
  shells (trace (snd (Agent6.iteration _ "q" [user_msg "q"]
                        (Replay.start cleared)))) = ["pwd"].
Proof.
  intros blocked cleared. split.
  - exact (proj2 (proj1 (gate_verdict_decides Replay.env "q" [user_msg "q"]
                           (Replay.start blocked) "rm -rf /"
                           eq_refl eq_refl) eq_refl)).
  - exact (proj2 (proj2 (gate_verdict_decides Replay.env "q" [user_msg "q"]
                           (Replay.start cleared) "pwd"
                           eq_refl eq_refl) eq_refl)).
Defined.

(** X11: in file 6, a reply that passes the malformed-turn check never
    parses to both an action and a final answer: one of the two is
    missing. *)
Theorem guard_separates_action_and_answer (output : string) :
  Py.contains "|Action:|" output && Py.contains "|Final Answer:|" output
    = false ->
  snd (fst (Agent6.parse_output output)) = None \/
  snd (Agent6.parse_output output) = "".
Proof.
  intros H. apply andb_false_iff in H as [H | H].
  - left. now apply GuardedRunFacts.parse6_action_absent.
  - right. now apply Agent6Facts.parse6_final_absent.
Qed.

Lemma guard_separates_action_and_answer_witness :
  snd (fst (Agent6.parse_output "|Thought:| done |Final Answer:| 4")) = None \/
  snd (Agent6.parse_output "|Thought:| done |Final Answer:| 4") = "".
Proof.
  exact (guard_separates_action_and_answer
           "|Thought:| done |Final Answer:| 4" eq_refl).
Defined.

(** The predicate of [every_command_is_gated] does tell traces apart: a
    command with no question before it, or with a question about another
    command, is not gated. *)
Example gated_tells_apart :
  ~ gated [Shell "ls" (Some 30%Z)] /\
  ~ gated [Chat "gemma3:12b" [user_msg (Agent6.safety_prompt "pwd")];
           Shell "ls" (Some 30%Z)] /\
  gated [Chat "gemma3:12b" [user_msg (Agent6.safety_prompt "ls")];
         Shell "ls" (Some 30%Z)].
Proof.
  unfold gated. cbn [rev app gated_back]. repeat split.
  - intros (_ & [r H] & _). discriminate H.
  - intros (_ & [r H] & _). discriminate H.
  - eexists. reflexivity.
Qed.

(** * The loop of file 4 against the loop of file 2 *)

Module ContextFacts.
Import Py PyFacts Re ReFacts LoopFacts.

(** A pass of the loop of file 4 is a pass of the loop of file 2, the
    history handed back with the answer. *)
Lemma iteration4_iteration2 (E : Env) (history : list message) (s : state E) :
  Agent4.iteration E history s =
  (match fst (Agent2.iteration E history s) with
   | Return answer => Return (answer, history)
   | Next history' => Next history'
   end,
   snd (Agent2.iteration E history s)).
Proof.
  rewrite Agent2Facts.iteration_eq.
  unfold Agent4.iteration, Agent4.get_llm_response.
  rewrite bind_eq, chat_stream_eq. cbn [fst snd].
  change Agent4.accumulate with Agent2.accumulate.
  change Agent4.parse_output with Agent2.parse_output.
  set (full_response := Agent2.accumulate _).
  set (s' := {| world := _; trace := _ |}).
  destruct (Agent2.parse_output full_response) as [[thought action] final].
  cbn [fst snd]. destruct (truthy final); [reflexivity|].
  unfold Agent4.dispatch, Agent2.dispatch.
  change (Agent4.TOOLS E) with (Agent2.TOOLS E).
  destruct action as [[tool_name arg]|]; [|reflexivity].
  destruct (dict_get tool_name (Agent2.TOOLS E)) as [tool|]; [|reflexivity].
  rewrite !bind_eq. reflexivity.
Qed.

Lemma loop4_loop2 (E : Env) (steps : nat) :
  forall (history : list message) (s : state E),
    fst (fst (Agent4.loop E steps history s)) = fst (Agent2.loop E steps history s)
    /\ snd (Agent4.loop E steps history s) = snd (Agent2.loop E steps history s)
    /\ exists t, snd (fst (Agent4.loop E steps history s)) = (history ++ t)%list.
Proof.
  induction steps as [|steps IH]; intros history s.
  - cbn. repeat split. exists []. now rewrite app_nil_r.
  - cbn [Agent4.loop Agent2.loop]. rewrite !bind_eq, iteration4_iteration2.
    cbn [fst snd].
    destruct (RunFacts.iteration2_shape E history s) as (_ & _ & _ & _ & Hf).
    destruct (fst (Agent2.iteration E history s)) as [answer|history'].
    + cbn. repeat split. exists []. now rewrite app_nil_r.
    + destruct (IH history' (snd (Agent2.iteration E history s)))
        as (Ha & Hs & t' & Hh).
      repeat split; [exact Ha | exact Hs|].
      destruct Hf as [t ->]. exists (t ++ t')%list.
      now rewrite Hh, app_assoc.
Qed.

End ContextFacts.

(** X12: the loop of file 4 behaves as the loop of file 2: from the same
    history and on the same host it returns the same answer, makes the
    same model calls and runs the same commands; the history it returns
    beside the answer extends the history it started from. *)
Theorem styled_loop_agrees_with_streaming_loop (E : Env) (steps : nat)
  (history : list message) (s : state E) :
  fst (fst (Agent4.loop E steps history s)) = fst (Agent2.loop E steps history s)
  /\ snd (Agent4.loop E steps history s) = snd (Agent2.loop E steps history s)
  /\ exists t, snd (fst (Agent4.loop E steps history s)) = (history ++ t)%list.
Proof. apply ContextFacts.loop4_loop2. Qed.

(** X13: a run of [run_agent] of file 4 first asks [ollama show] for the
    model, without a timeout, then makes at most [max_steps] model calls
    and at most one command per call; it returns a non-empty answer and
    a history that opens with the system prompt and the query. *)
Theorem styled_run_stays_within_budget (E : Env) (query : string)
  (max_steps : Z) (w : World E) :
  let r := Agent4.run_agent E query max_steps (init w) in
  let t := trace (snd r) in
  List.length (chats t) <= Z.to_nat max_steps /\
  List.length (shells t) <= 1 + List.length (chats t) /\
  (exists cmds, shells t = "ollama show llama3.1:8b" :: cmds) /\
  fst (fst r) <> "" /\
  exists turns,
    snd (fst r)
    = ([system_msg Agent4.SYSTEM_PROMPT; user_msg query] ++ turns)%list.
Proof.
  cbn zeta. unfold Agent4.run_agent, Agent4.get_context_window_size.
  rewrite !LoopFacts.bind_eq. cbn [ret fst snd].
  set (s0 := snd (subprocess_run _ None (init w))).
  assert (Ht0 : trace s0 = [Shell "ollama show llama3.1:8b" None]).
  { subst s0. now rewrite LoopFacts.subprocess_run_trace_none. }
  destruct (ContextFacts.loop4_loop2 E (Z.to_nat max_steps)
              [system_msg Agent4.SYSTEM_PROMPT; user_msg query] s0)
    as (Ha & Hs & turns & Hh).
  destruct (RunFacts.loop2_shape E (Z.to_nat max_steps)
              [system_msg Agent4.SYSTEM_PROMPT; user_msg query] s0)
    as (hs & Hc & Hl & Hsh & _ & _ & Hr).
  rewrite Hs, Ha. rewrite Ht0 in Hc, Hsh. cbn [chats shells List.length app] in Hc, Hsh.
  rewrite Hc. repeat split; [exact Hl | lia | | exact Hr | now exists turns].
  clear - Ht0.
  generalize (Z.to_nat max_steps) as steps.
  generalize [system_msg Agent4.SYSTEM_PROMPT; user_msg query] as history.
  intros history steps. revert history s0 Ht0.
  assert (Hgen : forall steps history (s : state E) cmds,
             shells (trace s) = "ollama show llama3.1:8b" :: cmds ->
             exists cmds',
               shells (trace (snd (Agent2.loop E steps history s)))
               = "ollama show llama3.1:8b" :: cmds').
  { induction steps0 as [|steps0 IH]; intros history s cmds Hs.
    - cbn. now exists cmds.
    - cbn [Agent2.loop]. rewrite LoopFacts.bind_eq.
      destruct (RunFacts.iteration2_shape E history s) as (extra & Ht & _).
      assert (Hs1 : exists cmds1,
                 shells (trace (snd (Agent2.iteration E history s)))
                 = "ollama show llama3.1:8b" :: cmds1).
      { rewrite Ht, LoopFacts.shells_app, Hs. cbn [shells app].
        eexists. reflexivity. }
      destruct Hs1 as [cmds1 Hs1].
      destruct (fst (Agent2.iteration E history s)) as [answer|history'].
      + cbn [ret snd]. now exists cmds1.
      + now apply (IH history' _ cmds1). }
  intros history s0 Ht0. apply (Hgen steps history s0 []).
  now rewrite Ht0.
Qed.

(** X14: in file 6 the final check can lose the answer: when the
    verification response holds the [|Better Answer:|] marker with
    nothing but whitespace after its first occurrence, the empty string
    is returned in place of the candidate, whatever the candidate was. *)
Theorem empty_better_answer_overrides (E : Env) (query : string)
  (history : list message) (final_answer : string) (s : state E)
  (before after : string) :
  let verification_response :=
    Agent6.accumulate
      (fst (ollama_chat_stream E "gemma3:12b"
              [user_msg (Agent6.verification_prompt query history final_answer)]
              (world s))) in
  Py.partition "|Better Answer:|" verification_response
    = Some (before, after) ->
  all_space after = true ->
  fst (Agent6.final_check E query history final_answer s) = "".
Proof.
  intros v Hpart Hblank. subst v.
  unfold Agent6.final_check, Agent6.get_llm_response.
  rewrite LoopFacts.bind_eq, LoopFacts.chat_stream_eq. cbn [fst snd].
  rewrite VerifierFacts.better_answer_partition, Hpart. cbn [ret fst].
  now apply PyFacts.strip_all_space.
Qed.

Lemma empty_better_answer_overrides_witness :
  fst (Agent6.final_check _ "What is 2+2?" [] "4"
         (Constant.start ["I agree. |Better Answer:| "] (Failed ""))) = "".
Proof.
  exact (empty_better_answer_overrides _ "What is 2+2?" [] "4"
           (Constant.start ["I agree. |Better Answer:| "] (Failed ""))
           "I agree. " " " eq_refl eq_refl).
Defined.



(** The predicate of [every_action_is_answered] does tell traces apart: a
    model call that follows a command, or a refusal of the gate, with a
    history that lacks the Observation is not reported; with the turn
    and its Observation at the end it is. *)
Example reported_tells_apart :
  let h := [user_msg "list files"] in
  let turn := assistant_msg "|Action:| run_shell_command: ls" in
  let always := fun _ : list message => True in
  ~ reported Agent2.parse_output asks_nothing always
      [Chat "llama3.1:8b" h; Shell "ls" (Some 30%Z); Chat "llama3.1:8b" h] /\
  ~ reported Agent6.parse_output asks_gate always
      [Chat "gemma3:12b" [user_msg (Agent6.safety_prompt "ls")];
       Chat "gemma3:12b" (h ++ [turn])] /\
  reported Agent2.parse_output asks_nothing always
    [Chat "llama3.1:8b" h; Shell "ls" (Some 30%Z);
     Chat "llama3.1:8b" (h ++ [turn; user_msg "Observation: a.txt"])].
Proof.
  intros h turn always. cbn [reported]. split; [|split].
  - intros (_ & (e & f & t & o & Heq & _) & _).
    apply (f_equal (@List.length message)) in Heq.
    rewrite length_app in Heq. cbn in Heq. lia.
  - intros (_ & H & _).
    destruct (H "ls" eq_refl) as (e & f & t & o & Heq & _).
    destruct e as [|m1 [|m2 [|m3 e]]]; discriminate Heq.
  - split; [exact I|]. split; [|exact I].
    now exists h, "|Action:| run_shell_command: ls", "run_shell_command",
      "a.txt".
Qed.
